(** * Drone-Panel: the flight-data route over a D1 table

    A shallow embedding of [src/app/api/flightdata/route.ts]: the
    [UnityDataWriter] class (two inserts and three selects over the table
    [unity_data] of [schema.sql]) and the two route handlers [POST] and [GET].

    Conventions of the embedding.
    - A JavaScript number that comes out of [JSON.parse] is an exact rational
      ([Q]); rounding to binary64 is not modelled, nothing below computes with
      the fractional part. A number that may be [NaN] (the result of
      [parseInt]) has type [number].
    - A property of the request body is a [Field]: absent ([undefined]),
      [null], or a value of the type that [types/index.ts] declares for it.
    - The handlers are asynchronous functions that await every call in
      sequence, so they are written in a state-and-exception monad [Js] whose
      state is the D1 database. *)

From Stdlib Require Import List String Ascii ZArith QArith Bool Lia.
From Stdlib Require Import Sorting.Sorted Sorting.Permutation Lqa.
Import ListNotations.

Local Open Scope string_scope.
Local Open Scope list_scope.
Local Open Scope Z_scope.

(** ** JavaScript values *)

(** [undefined], [null] or a value of the declared type. *)
Inductive Field (A : Type) : Type :=
| Absent
| Null
| Present (a : A).
Arguments Absent {A}.
Arguments Null {A}.
Arguments Present {A} a.

(** A JavaScript number that may be [NaN]. *)
Inductive number : Type :=
| NaN
| Num (q : Q).

(** The errors that the route can see thrown. *)
Inductive JsError : Type :=
| SyntaxError                 (* request.json() on a body that is not JSON *)
| TypeError                   (* property access on null or undefined *)
| D1_TYPE_ERROR               (* bind() of undefined *)
| D1_ERROR (cause : string).  (* a statement that SQLite refuses or cannot run *)

(** [types/index.ts]: the velocity object and the sample. *)
Record Velocity : Type := {
  x : Field Q;
  y : Field Q;
  z : Field Q
}.

Record UnityData : Type := {
  deviceId : Field string;
  formattedTime : Field string;
  timestamp : Field Q;
  latitude : Field Q;
  longitude : Field Q;
  pitch : Field Q;
  yaw : Field Q;
  roll : Field Q;
  speed : Field Q;
  velocity : Field Velocity;
  horizontalSpeed : Field Q;
  verticalSpeed : Field Q;
  flightDirection : Field Q;
  groundDistance : Field Q
}.

(** JavaScript truthiness, as [!v] tests it: [undefined], [null], the empty
    string and zero are falsy. *)
Definition truthy_string (v : Field string) : bool :=
  match v with
  | Present s => negb (String.eqb s "")
  | _ => false
  end.

Definition truthy_number (v : Field Q) : bool :=
  match v with
  | Present q => negb (Qeq_bool q 0)
  | _ => false
  end.

(** ** The table [unity_data] of [schema.sql] *)

Module DroneData.
Record t : Type := mk {
  id : Z;                    (* INTEGER PRIMARY KEY AUTOINCREMENT *)
  device_id : string;        (* TEXT NOT NULL *)
  formatted_time : string;   (* TEXT NOT NULL *)
  timestamp : Q;             (* INTEGER NOT NULL; a non-integral number is kept as it is *)
  latitude : Q;              (* REAL NOT NULL, and so on *)
  longitude : Q;
  pitch : Q;
  yaw : Q;
  roll : Q;
  speed : Q;
  velocity_x : Q;
  velocity_y : Q;
  velocity_z : Q;
  horizontal_speed : Q;
  vertical_speed : Q;
  flight_direction : Q;
  ground_distance : Q;
  created_at : string        (* DATETIME DEFAULT CURRENT_TIMESTAMP *)
}.
End DroneData.

(** The four statements that the writer prepares. *)
Inductive Sql : Type :=
| INSERT_unity_data
| SELECT_latest_of_device
| SELECT_latest
| SELECT_time_range.

(** A call that reaches the database. *)
Inductive D1Call : Type :=
| CallRun (sql : Sql)
| CallAll (sql : Sql)
| CallBatch (size : nat).

(** The database: the table, the AUTOINCREMENT counter that SQLite keeps in
    [sqlite_sequence], and the calls received so far (oldest first). *)
Record D1Database : Type := {
  unity_data : list DroneData.t;
  sqlite_sequence : Z;
  calls : list D1Call
}.

Definition received (c : D1Call) (db : D1Database) : D1Database :=
  {| unity_data := unity_data db;
     sqlite_sequence := sqlite_sequence db;
     calls := calls db ++ [c] |}.

(** ** The monad of the handlers *)

Inductive Outcome (A : Type) : Type :=
| Return (a : A)
| Throw (e : JsError).
Arguments Return {A} a.
Arguments Throw {A} e.

Definition Js (A : Type) : Type := D1Database -> Outcome A * D1Database.

Definition ret {A} (a : A) : Js A := fun db => (Return a, db).

Definition throw {A} (e : JsError) : Js A := fun db => (Throw e, db).

Definition bind {A B} (c : Js A) (k : A -> Js B) : Js B :=
  fun db =>
    match c db with
    | (Return a, db') => k a db'
    | (Throw e, db') => (Throw e, db')
    end.

(** [try { c } catch (error) { h error }]: what [c] did to the database before
    it threw stays done. *)
Definition try_catch {A} (c : Js A) (h : JsError -> Js A) : Js A :=
  fun db =>
    match c db with
    | (Return a, db') => (Return a, db')
    | (Throw e, db') => h e db'
    end.

Declare Scope js_scope.
Delimit Scope js_scope with js.
Notation "v <- c ;; k" := (bind c (fun v => k))
  (at level 61, c at next level, right associativity) : js_scope.
Notation "c ;;; k" := (bind c (fun _ => k))
  (at level 61, right associativity) : js_scope.
Local Open Scope js_scope.

(** ** D1: binding values and running statements *)

(** The parameters of the INSERT once bound; [None] is SQL NULL. *)
Record InsertParams : Type := {
  p_device_id : option string;
  p_formatted_time : option string;
  p_timestamp : option Q;
  p_latitude : option Q;
  p_longitude : option Q;
  p_pitch : option Q;
  p_yaw : option Q;
  p_roll : option Q;
  p_speed : option Q;
  p_velocity_x : option Q;
  p_velocity_y : option Q;
  p_velocity_z : option Q;
  p_horizontal_speed : option Q;
  p_vertical_speed : option Q;
  p_flight_direction : option Q;
  p_ground_distance : option Q
}.

(** [stmt.bind(v)] for one value: D1 refuses [undefined], and binds [null] as
    NULL. *)
Definition bind_value {A} (v : Field A) : Js (option A) :=
  match v with
  | Absent => throw D1_TYPE_ERROR
  | Null => ret None
  | Present a => ret (Some a)
  end.

(** [data.velocity.x]: reading a property of [undefined] or [null] throws. *)
Definition get_velocity (data : UnityData) (p : Velocity -> Field Q) : Js (Field Q) :=
  match velocity data with
  | Present v => ret (p v)
  | _ => throw TypeError
  end.

(** [stmt.bind(...)] with its sixteen arguments: the arguments are evaluated
    first (reading [data.velocity.x] can throw), then D1 checks each value. *)
Definition bind_insert (data : UnityData) : Js InsertParams :=
  vx <- get_velocity data x ;;
  vy <- get_velocity data y ;;
  vz <- get_velocity data z ;;
  a1 <- bind_value (deviceId data) ;;
  a2 <- bind_value (formattedTime data) ;;
  a3 <- bind_value (timestamp data) ;;
  a4 <- bind_value (latitude data) ;;
  a5 <- bind_value (longitude data) ;;
  a6 <- bind_value (pitch data) ;;
  a7 <- bind_value (yaw data) ;;
  a8 <- bind_value (roll data) ;;
  a9 <- bind_value (speed data) ;;
  a10 <- bind_value vx ;;
  a11 <- bind_value vy ;;
  a12 <- bind_value vz ;;
  a13 <- bind_value (horizontalSpeed data) ;;
  a14 <- bind_value (verticalSpeed data) ;;
  a15 <- bind_value (flightDirection data) ;;
  a16 <- bind_value (groundDistance data) ;;
  ret {| p_device_id := a1; p_formatted_time := a2; p_timestamp := a3;
         p_latitude := a4; p_longitude := a5; p_pitch := a6; p_yaw := a7;
         p_roll := a8; p_speed := a9; p_velocity_x := a10;
         p_velocity_y := a11; p_velocity_z := a12;
         p_horizontal_speed := a13; p_vertical_speed := a14;
         p_flight_direction := a15; p_ground_distance := a16 |}.

Definition obind {A B} (o : option A) (k : A -> option B) : option B :=
  match o with
  | Some a => k a
  | None => None
  end.

(** The row that the INSERT builds: every column is NOT NULL, so a NULL
    parameter gives no row; [id] and [created_at] come from the database. *)
Definition new_row (rowid : Z) (now : string) (p : InsertParams) : option DroneData.t :=
  obind (p_device_id p) (fun c1 =>
  obind (p_formatted_time p) (fun c2 =>
  obind (p_timestamp p) (fun c3 =>
  obind (p_latitude p) (fun c4 =>
  obind (p_longitude p) (fun c5 =>
  obind (p_pitch p) (fun c6 =>
  obind (p_yaw p) (fun c7 =>
  obind (p_roll p) (fun c8 =>
  obind (p_speed p) (fun c9 =>
  obind (p_velocity_x p) (fun c10 =>
  obind (p_velocity_y p) (fun c11 =>
  obind (p_velocity_z p) (fun c12 =>
  obind (p_horizontal_speed p) (fun c13 =>
  obind (p_vertical_speed p) (fun c14 =>
  obind (p_flight_direction p) (fun c15 =>
  obind (p_ground_distance p) (fun c16 =>
  Some (DroneData.mk rowid c1 c2 c3 c4 c5 c6 c7 c8 c9 c10 c11 c12 c13 c14 c15 c16 now))))))))))))))))).

(** The table and the AUTOINCREMENT counter: what a transaction works on. *)
Definition Tables : Type := (list DroneData.t * Z)%type.

(** One INSERT: the row gets the next rowid and is appended. *)
Definition exec_insert (now : string) (p : InsertParams) (t : Tables) : option Tables :=
  let rowid := snd t + 1 in
  match new_row rowid now p with
  | Some r => Some (fst t ++ [r], rowid)
  | None => None
  end.

Definition NOT_NULL_failed : JsError := D1_ERROR "NOT NULL constraint failed".

(** [stmt.bind(...).run()] of the INSERT. *)
Definition run_insert (now : string) (p : InsertParams) : Js unit :=
  fun db =>
    let db1 := received (CallRun INSERT_unity_data) db in
    match exec_insert now p (unity_data db, sqlite_sequence db) with
    | Some (rows, seq) =>
        (Return tt, {| unity_data := rows; sqlite_sequence := seq; calls := calls db1 |})
    | None => (Throw NOT_NULL_failed, db1)
    end.

(** The statements of a batch, in order, on the working copy of a
    transaction. [fails i] says that statement number [i] cannot be run (the
    connection is lost, the transaction is aborted): the way to inject a
    failure in the middle of a batch. *)
Fixpoint exec_batch (fails : nat -> bool) (i : nat) (now : string)
    (statements : list InsertParams) (t : Tables) : option Tables :=
  match statements with
  | [] => Some t
  | p :: rest =>
      if fails i then None
      else
        match exec_insert now p t with
        | Some t' => exec_batch fails (S i) now rest t'
        | None => None
        end
  end.

Definition batch_aborted : JsError := D1_ERROR "batch aborted".

(** [db.batch(statements)]: D1 runs the statements as one SQL transaction;
    when one of them fails the whole sequence is rolled back. *)
Definition batch (fails : nat -> bool) (now : string)
    (statements : list InsertParams) : Js unit :=
  fun db =>
    let db1 := received (CallBatch (List.length statements)) db in
    match exec_batch fails 0 now statements (unity_data db, sqlite_sequence db) with
    | Some (rows, seq) =>
        (Return tt, {| unity_data := rows; sqlite_sequence := seq; calls := calls db1 |})
    | None => (Throw batch_aborted, db1)
    end.

(** ** SQL: WHERE, ORDER BY and LIMIT of the three SELECTs *)

Section Sort.
Context {A : Type} (leb : A -> A -> bool).

Fixpoint insert_by (a : A) (l : list A) : list A :=
  match l with
  | [] => [a]
  | b :: l' => if leb a b then a :: b :: l' else b :: insert_by a l'
  end.

(** A stable sort: rows with equal keys keep their order in the table. SQL
    leaves the order of such rows open; no theorem below depends on it. *)
Definition sort_by (l : list A) : list A := fold_right insert_by [] l.
End Sort.

Definition ORDER_BY_timestamp_ASC (rows : list DroneData.t) : list DroneData.t :=
  sort_by (fun a b => Qle_bool (DroneData.timestamp a) (DroneData.timestamp b)) rows.

Definition ORDER_BY_timestamp_DESC (rows : list DroneData.t) : list DroneData.t :=
  sort_by (fun a b => Qle_bool (DroneData.timestamp b) (DroneData.timestamp a)) rows.

(** [device_id = ?] *)
Definition device_is (deviceId : string) (r : DroneData.t) : bool :=
  String.eqb (DroneData.device_id r) deviceId.

(** [timestamp >= ?] and [timestamp <= ?]: [NaN] is bound as NULL, and a
    comparison with NULL selects no row. *)
Definition timestamp_ge (bound : number) (r : DroneData.t) : bool :=
  match bound with
  | NaN => false
  | Num q => Qle_bool q (DroneData.timestamp r)
  end.

Definition timestamp_le (bound : number) (r : DroneData.t) : bool :=
  match bound with
  | NaN => false
  | Num q => Qle_bool (DroneData.timestamp r) q
  end.

Definition is_integer (q : Q) : bool := (Qnum q mod Zpos (Qden q)) =? 0.

Definition to_integer (q : Q) : Z := Qnum q / Zpos (Qden q).

(** [LIMIT ?]: SQLite wants an integer; a negative one means no limit, and
    NULL ([NaN]) or a number with a fractional part is a datatype mismatch. *)
Definition LIMIT (limit : number) (rows : list DroneData.t) : option (list DroneData.t) :=
  match limit with
  | NaN => None
  | Num q =>
      if is_integer q
      then Some (if to_integer q <? 0 then rows else firstn (Z.to_nat (to_integer q)) rows)
      else None
  end.

Definition datatype_mismatch : JsError := D1_ERROR "datatype mismatch".

(** [stmt.bind(...).all()] followed by [result.results], for a SELECT whose
    rows are [rows]. *)
Definition all_results (sql : Sql) (rows : D1Database -> option (list DroneData.t)) :
    Js (list DroneData.t) :=
  fun db =>
    let db1 := received (CallAll sql) db in
    match rows db with
    | Some results => (Return results, db1)
    | None => (Throw datatype_mismatch, db1)
    end.

(** ** The class [UnityDataWriter] *)

Module UnityDataWriter.

(** [writeData(data)]: INSERT one row. [now] is CURRENT_TIMESTAMP. *)
Definition writeData (now : string) (data : UnityData) : Js unit :=
  p <- bind_insert data ;;
  run_insert now p.

(** [dataArray.map((data) => stmt.bind(...))] *)
Fixpoint map_bind (dataArray : list UnityData) : Js (list InsertParams) :=
  match dataArray with
  | [] => ret []
  | data :: rest =>
      p <- bind_insert data ;;
      ps <- map_bind rest ;;
      ret (p :: ps)
  end.

(** [writeBatchData(dataArray)]: one [db.batch] of all the INSERTs. *)
Definition writeBatchData (fails : nat -> bool) (now : string)
    (dataArray : list UnityData) : Js unit :=
  statements <- map_bind dataArray ;;
  batch fails now statements.

(** [getLatestData(deviceId, limit)]:
    SELECT * FROM unity_data WHERE device_id = ? ORDER BY timestamp DESC LIMIT ? *)
Definition getLatestData (deviceId : string) (limit : number) : Js (list DroneData.t) :=
  all_results SELECT_latest_of_device (fun db =>
    LIMIT limit (ORDER_BY_timestamp_DESC (filter (device_is deviceId) (unity_data db)))).

(** [getAllLatestData(limit)]:
    SELECT * FROM unity_data ORDER BY timestamp DESC LIMIT ? *)
Definition getAllLatestData (limit : number) : Js (list DroneData.t) :=
  all_results SELECT_latest (fun db =>
    LIMIT limit (ORDER_BY_timestamp_DESC (unity_data db))).

(** [getDataByTimeRange(deviceId, startTime, endTime)]:
    SELECT * FROM unity_data
    WHERE device_id = ? AND timestamp >= ? AND timestamp <= ?
    ORDER BY timestamp ASC *)
Definition getDataByTimeRange (deviceId : string) (startTime endTime : number) :
    Js (list DroneData.t) :=
  all_results SELECT_time_range (fun db =>
    Some (ORDER_BY_timestamp_ASC
            (filter (fun r => device_is deviceId r && timestamp_ge startTime r
                              && timestamp_le endTime r)
                    (unity_data db)))).

End UnityDataWriter.

(** ** [parseInt] *)

Definition is_white_space (c : ascii) : bool :=
  match N_of_ascii c with
  | 9%N | 10%N | 11%N | 12%N | 13%N | 32%N => true
  | _ => false
  end.

Fixpoint trim_start (s : string) : string :=
  match s with
  | String c s' => if is_white_space c then trim_start s' else s
  | EmptyString => s
  end.

Definition digit_of (radix : Z) (c : ascii) : option Z :=
  let n := Z.of_N (N_of_ascii c) in
  let d :=
    if (48 <=? n) && (n <=? 57) then n - 48
    else if (97 <=? n) && (n <=? 122) then n - 87
    else if (65 <=? n) && (n <=? 90) then n - 55
    else radix in
  if d <? radix then Some d else None.

(** The longest prefix of digits, [acc] being the digits read so far. *)
Fixpoint digits (radix : Z) (s : string) (acc : option Z) : option Z :=
  match s with
  | String c s' =>
      match digit_of radix c with
      | Some d =>
          digits radix s' (Some (radix * match acc with Some n => n | None => 0 end + d))
      | None => acc
      end
  | EmptyString => acc
  end.

(** [parseInt(s)] without a radix: white space, a sign, [0x] for base
    sixteen, digits; [NaN] when there is no digit. *)
Definition parseInt (s : string) : number :=
  let s1 := trim_start s in
  let '(negative, s2) :=
    match s1 with
    | String "-" r => (true, r)
    | String "+" r => (false, r)
    | _ => (false, s1)
    end in
  let '(radix, s3) :=
    match s2 with
    | String "0" (String "x" r) => (16, r)
    | String "0" (String "X" r) => (16, r)
    | _ => (10, s2)
    end in
  match digits radix s3 None with
  | Some n => Num (inject_Z (if negative : bool then - n else n))
  | None => NaN
  end.

(** ** The route *)

(** [getCloudflareContext()] throws, or gives a context whose [env] may hold
    the binding [DB]. *)
Inductive D1Binding : Type := D1.

Record CloudflareEnv : Type := { DB : option D1Binding }.

Inductive CloudflareContext : Type :=
| ContextThrows
| ContextUndefined
| Context (env : option CloudflareEnv).

Definition getCloudflareEnv (context : CloudflareContext) : option CloudflareEnv :=
  match context with
  | ContextThrows => None
  | ContextUndefined => None
  | Context env => env
  end.

(** [!env || !env.DB] *)
Definition no_database (env : option CloudflareEnv) : bool :=
  match env with
  | Some {| DB := Some _ |} => false
  | _ => true
  end.

(** The body of a POST: not JSON, the JSON [null], or an object. A JSON
    number, string, boolean or array has none of the properties read here and
    behaves as the object with every field [Absent]. *)
Inductive RequestBody : Type :=
| NotJson
| JsonNull
| Json (data : UnityData).

(** The search parameters of a GET: [searchParams.get(name)] is a string or
    [null]. *)
Record URLSearchParams : Type := {
  get_deviceId : option string;
  get_limit : option string;
  get_startTime : option string;
  get_endTime : option string
}.

(** What [NextResponse.json] is given. *)
Inductive ResponseBody : Type :=
| ErrorBody (error : string) (details : option JsError)
| SavedBody (message : string) (deviceId : Field string) (timestamp : Field Q)
    (formattedTime : Field string)
| RangeBody (data : list DroneData.t) (deviceId : string) (startTime endTime : string)
    (count : nat)
| DeviceBody (data : list DroneData.t) (deviceId : string) (limit : number) (count : nat)
| LatestBody (data : list DroneData.t) (limit : number) (count : nat).

Record NextResponse : Type := {
  status : Z;
  body : ResponseBody
}.

Definition json (b : ResponseBody) (st : Z) : NextResponse :=
  {| status := st; body := b |}.

(** [await request.json()] *)
Definition request_json (request : RequestBody) : Js (option UnityData) :=
  match request with
  | NotJson => throw SyntaxError
  | JsonNull => ret None
  | Json data => ret (Some data)
  end.

(** [!data.deviceId || !data.timestamp] *)
Definition missing_deviceId_or_timestamp (data : UnityData) : bool :=
  negb (truthy_string (deviceId data)) || negb (truthy_number (timestamp data)).

Definition POST (context : CloudflareContext) (request : RequestBody) (now : string) :
    Js NextResponse :=
  try_catch
    (let env := getCloudflareEnv context in
     if no_database env
     then ret (json (ErrorBody "Database not available" None) 500)
     else
       parsed <- request_json request ;;
       match parsed with
       | None => throw TypeError   (* data.deviceId of null *)
       | Some data =>
           if missing_deviceId_or_timestamp data
           then ret (json (ErrorBody "Invalid data format: missing deviceId or timestamp"
                             None) 400)
           else
             UnityDataWriter.writeData now data ;;;
             ret (json (SavedBody "Data saved successfully" (deviceId data)
                          (timestamp data) (formattedTime data)) 200)
       end)
    (fun error => ret (json (ErrorBody "Failed to save data" (Some error)) 500)).

(** A string is truthy when it is neither [null] nor empty. *)
Definition truthy_param (p : option string) : option string :=
  match p with
  | Some "" => None
  | _ => p
  end.

Definition GET (context : CloudflareContext) (searchParams : URLSearchParams) :
    Js NextResponse :=
  try_catch
    (let env := getCloudflareEnv context in
     if no_database env
     then ret (json (ErrorBody "Database not available" None) 500)
     else
       let deviceId := get_deviceId searchParams in
       let limit :=
         parseInt match truthy_param (get_limit searchParams) with
                  | Some s => s
                  | None => "10"
                  end in
       let startTime := get_startTime searchParams in
       let endTime := get_endTime searchParams in
       match truthy_param deviceId, truthy_param startTime, truthy_param endTime with
       | Some d, Some s, Some e =>
           data <- UnityDataWriter.getDataByTimeRange d (parseInt s) (parseInt e) ;;
           ret (json (RangeBody data d s e (List.length data)) 200)
       | Some d, _, _ =>
           data <- UnityDataWriter.getLatestData d limit ;;
           ret (json (DeviceBody data d limit (List.length data)) 200)
       | None, _, _ =>
           data <- UnityDataWriter.getAllLatestData limit ;;
           ret (json (LatestBody data limit (List.length data)) 200)
       end)
    (fun error => ret (json (ErrorBody "Failed to query data" (Some error)) 500)).

(** ** Vocabulary of the statements *)

(** Ascending and descending by timestamp. *)
Definition ascending (l : list DroneData.t) : Prop :=
  StronglySorted (fun a b => (DroneData.timestamp a <= DroneData.timestamp b)%Q) l.

Definition descending (l : list DroneData.t) : Prop :=
  StronglySorted (fun a b => (DroneData.timestamp b <= DroneData.timestamp a)%Q) l.


(** The sample that a stored record carries: the record without the two
    fields that the database assigns. *)
Definition sample_of (r : DroneData.t) : UnityData :=
  {| deviceId := Present (DroneData.device_id r);
     formattedTime := Present (DroneData.formatted_time r);
     timestamp := Present (DroneData.timestamp r);
     latitude := Present (DroneData.latitude r);
     longitude := Present (DroneData.longitude r);
     pitch := Present (DroneData.pitch r);
     yaw := Present (DroneData.yaw r);
     roll := Present (DroneData.roll r);
     speed := Present (DroneData.speed r);
     velocity := Present {| x := Present (DroneData.velocity_x r);
                            y := Present (DroneData.velocity_y r);
                            z := Present (DroneData.velocity_z r) |};
     horizontalSpeed := Present (DroneData.horizontal_speed r);
     verticalSpeed := Present (DroneData.vertical_speed r);
     flightDirection := Present (DroneData.flight_direction r);
     groundDistance := Present (DroneData.ground_distance r) |}.

(** A computation that leaves the database alone, calls included. *)
Definition pure {A} (c : Js A) : Prop := forall db, snd (c db) = db.

(** The validation rule in the words of the specification: a sample is
    invalid if [deviceId] is empty or absent, or [timestamp] is absent or not
    representable as an integer. To be compared with
    [missing_deviceId_or_timestamp], which is what the route tests. *)
Definition invalid_as_specified (data : UnityData) : bool :=
  match deviceId data with
  | Present s => String.eqb s ""
  | _ => true
  end
  ||
  match timestamp data with
  | Present t => negb (is_integer t)
  | _ => true
  end.

(** A complete sample of device [d] at time [t], at rest at the origin. *)
Definition sample (d : string) (t : Q) : UnityData :=
  {| deviceId := Present d;
     formattedTime := Present "1970-01-01 00:00:00";
     timestamp := Present t;
     latitude := Present 0%Q;
     longitude := Present 0%Q;
     pitch := Present 0%Q;
     yaw := Present 0%Q;
     roll := Present 0%Q;
     speed := Present 0%Q;
     velocity := Present {| x := Present 0%Q; y := Present 0%Q; z := Present 0%Q |};
     horizontalSpeed := Present 0%Q;
     verticalSpeed := Present 0%Q;
     flightDirection := Present 0%Q;
     groundDistance := Present 0%Q |}.

(** The row that [sample d t] becomes. *)
Definition row (rowid : Z) (d : string) (t : Q) (now : string) : DroneData.t :=
  DroneData.mk rowid d "1970-01-01 00:00:00" t 0 0 0 0 0 0 0 0 0 0 0 0 0 now.

Definition empty_database : D1Database :=
  {| unity_data := []; sqlite_sequence := 0; calls := [] |}.

(** A context in which the binding [DB] is there. *)
Definition with_database : CloudflareContext := Context (Some {| DB := Some D1 |}).

(** The state of the database after one more handler. *)
Definition and_then {A} (db : D1Database) (c : Js A) : D1Database := snd (c db).

(** The database of the scenario: A at 100, A at 300, B at 200, posted in
    that order. *)
Definition scenario : D1Database :=
  and_then (and_then (and_then empty_database
    (POST with_database (Json (sample "A" 100)) "t1"))
    (POST with_database (Json (sample "A" 300)) "t2"))
    (POST with_database (Json (sample "B" 200)) "t3").

(** The records of device [d] with a timestamp in the closed interval from
    [s] to [e], as a proposition and as the test of the WHERE clause. *)
Definition in_range (d : string) (s e : Q) (r : DroneData.t) : Prop :=
  DroneData.device_id r = d /\ (s <= DroneData.timestamp r)%Q /\ (DroneData.timestamp r <= e)%Q.

Definition in_rangeb (d : string) (s e : Q) (r : DroneData.t) : bool :=
  device_is d r && Qle_bool s (DroneData.timestamp r) && Qle_bool (DroneData.timestamp r) e.

(** The search parameters without the two time bounds. *)
Definition without_bounds (searchParams : URLSearchParams) : URLSearchParams :=
  {| get_deviceId := get_deviceId searchParams;
     get_limit := get_limit searchParams;
     get_startTime := None;
     get_endTime := None |}.

(** [searchParams.get("limit") || "10"], parsed. *)
Definition limit_of (searchParams : URLSearchParams) : number :=
  parseInt match truthy_param (get_limit searchParams) with
           | Some s => s
           | None => "10"
           end.

(** The two answers that do not depend on the request. *)
Definition database_not_available : NextResponse :=
  json (ErrorBody "Database not available" None) 500.

Definition rejected : NextResponse :=
  json (ErrorBody "Invalid data format: missing deviceId or timestamp" None) 400.

(** ** The dashboard: the newest record of each device

    [fetchLatestData] of the page component asks the route for the latest
    records and reduces them to one record per device. *)

(** A JavaScript [Map] with string keys: its entries in insertion order. *)
Definition JsMap (V : Type) : Type := list (string * V).

Fixpoint Map_get {V} (m : JsMap V) (key : string) : option V :=
  match m with
  | [] => None
  | (k, v) :: m' => if String.eqb k key then Some v else Map_get m' key
  end.

(** [set] replaces the value of a key that is there, in place, and adds a new
    key at the end. *)
Fixpoint Map_set {V} (m : JsMap V) (key : string) (value : V) : JsMap V :=
  match m with
  | [] => [(key, value)]
  | (k, v) :: m' =>
      if String.eqb k key then (key, value) :: m' else (k, v) :: Map_set m' key value
  end.

Definition Map_values {V} (m : JsMap V) : list V := map snd m.

(** The body of the [forEach]:
    [if (!existing || item.timestamp > existing.timestamp) deviceMap.set(...)] *)
Definition keep_newest (deviceMap : JsMap DroneData.t) (item : DroneData.t) : JsMap DroneData.t :=
  match Map_get deviceMap (DroneData.device_id item) with
  | Some existing =>
      if negb (Qle_bool (DroneData.timestamp item) (DroneData.timestamp existing))
      then Map_set deviceMap (DroneData.device_id item) item
      else deviceMap
  | None => Map_set deviceMap (DroneData.device_id item) item
  end.

(** [array.sort(compareFn)]: stable; [a] stays before [b] unless
    [compareFn(a, b)] is positive. *)
Definition Array_sort {A} (compareFn : A -> A -> Q) (l : list A) : list A :=
  sort_by (fun a b => Qle_bool (compareFn a b) 0) l.

(** [latestData], from [result.data]. *)
Definition latestData (data : list DroneData.t) : list DroneData.t :=
  let deviceMap := fold_left keep_newest data [] in
  Array_sort (fun a b => (DroneData.timestamp b - DroneData.timestamp a)%Q) (Map_values deviceMap).

(** What the component shows after a fetch that is answered [response]:
    nothing new when the answer is not ok or carries no array [data]. *)
Definition fetchLatestData (response : NextResponse) : option (list DroneData.t) :=
  if (200 <=? status response) && (status response <=? 299)
  then
    match body response with
    | RangeBody data _ _ _ _ => Some (latestData data)
    | DeviceBody data _ _ _ => Some (latestData data)
    | LatestBody data _ _ => Some (latestData data)
    | _ => None
    end
  else None.

(** The search parameters of [/api/flightdata?limit=100]. *)
Definition dashboard_request : URLSearchParams :=
  {| get_deviceId := None; get_limit := Some "100";
     get_startTime := None; get_endTime := None |}.

(** ** Vocabulary of the further properties *)

Definition is_absent {A} (v : Field A) : bool :=
  match v with
  | Absent => true
  | _ => false
  end.

(** A sample that [stmt.bind(...)] cannot take: [velocity] is not an object,
    or one of the sixteen values is [undefined]. *)
Definition unbindable (data : UnityData) : bool :=
  match velocity data with
  | Present v => is_absent (x v) || is_absent (y v) || is_absent (z v)
  | _ => true
  end
  || is_absent (deviceId data) || is_absent (formattedTime data)
  || is_absent (timestamp data) || is_absent (latitude data)
  || is_absent (longitude data) || is_absent (pitch data) || is_absent (yaw data)
  || is_absent (roll data) || is_absent (speed data)
  || is_absent (horizontalSpeed data) || is_absent (verticalSpeed data)
  || is_absent (flightDirection data) || is_absent (groundDistance data).

Definition is_null {A} (v : Field A) : bool :=
  match v with
  | Null => true
  | _ => false
  end.

(** A sample with a [null] among the values to bind. *)
Definition has_null (data : UnityData) : bool :=
  match velocity data with
  | Present v => is_null (x v) || is_null (y v) || is_null (z v)
  | _ => false
  end
  || is_null (deviceId data) || is_null (formattedTime data)
  || is_null (timestamp data) || is_null (latitude data)
  || is_null (longitude data) || is_null (pitch data) || is_null (yaw data)
  || is_null (roll data) || is_null (speed data)
  || is_null (horizontalSpeed data) || is_null (verticalSpeed data)
  || is_null (flightDirection data) || is_null (groundDistance data).

(** A computation that throws nothing but errors in [P]. *)
Definition throws_only {A} (P : JsError -> Prop) (c : Js A) : Prop :=
  forall db e db', c db = (Throw e, db') -> P e.

Definition bind_error (e : JsError) : Prop := e = TypeError \/ e = D1_TYPE_ERROR.

(** The answer of a handler whose [try] block threw [e]. *)
Definition failed (error : string) (e : JsError) : NextResponse :=
  json (ErrorBody error (Some e)) 500.

(** The record [r0] as the database stores it: with the [id] and the
    [created_at] that the INSERT assigns. *)
Definition stored (rowid : Z) (now : string) (r0 : DroneData.t) : DroneData.t :=
  DroneData.mk rowid (DroneData.device_id r0) (DroneData.formatted_time r0) (DroneData.timestamp r0)
    (DroneData.latitude r0) (DroneData.longitude r0) (DroneData.pitch r0) (DroneData.yaw r0) (DroneData.roll r0)
    (DroneData.speed r0) (DroneData.velocity_x r0) (DroneData.velocity_y r0) (DroneData.velocity_z r0)
    (DroneData.horizontal_speed r0) (DroneData.vertical_speed r0) (DroneData.flight_direction r0)
    (DroneData.ground_distance r0) now.

(** The rows of a batch as the database stores them: consecutive ids after
    [seq], one [created_at]. *)
Fixpoint stored_batch (seq : Z) (now : string) (rows : list DroneData.t) : list DroneData.t :=
  match rows with
  | [] => []
  | r0 :: rest => stored (seq + 1) now r0 :: stored_batch (seq + 1) now rest
  end.

(** The ids grow along the table and none is above the AUTOINCREMENT
    counter. *)
Definition in_order (t : Tables) : Prop :=
  StronglySorted Z.lt (map DroneData.id (fst t)) /\ Forall (fun r => DroneData.id r <= snd t) (fst t).

Definition ids_in_order (db : D1Database) : Prop :=
  in_order (unity_data db, sqlite_sequence db).

(** The table and the counter of a database. *)
Definition tables (db : D1Database) : Tables := (unity_data db, sqlite_sequence db).

(** What a handler can have done to the table: nothing, or the INSERTs of a
    transaction that went through. *)
Definition inserted_into (db db' : D1Database) : Prop :=
  tables db' = tables db
  \/ exists fails now statements,
       exec_batch fails 0 now statements (tables db) = Some (tables db').

(** One [writeData] after the other, stopping at the first that throws. *)
Fixpoint writeEach (now : string) (dataArray : list UnityData) : Js unit :=
  match dataArray with
  | [] => ret tt
  | data :: rest => UnityDataWriter.writeData now data ;;; writeEach now rest
  end.

(** The search parameters with another [limit]. *)
Definition with_limit (limit : option string) (searchParams : URLSearchParams) :
    URLSearchParams :=
  {| get_deviceId := get_deviceId searchParams;
     get_limit := limit;
     get_startTime := get_startTime searchParams;
     get_endTime := get_endTime searchParams |}.

(** The newest of its device in [rows]. *)
Definition newest_of_its_device (rows : list DroneData.t) (r : DroneData.t) : Prop :=
  forall o, In o rows -> DroneData.device_id o = DroneData.device_id r ->
            (DroneData.timestamp o <= DroneData.timestamp r)%Q.

(** The map holds, for every device seen so far, the newest record seen of
    that device, under the name of the device. *)
Definition keeps_newest (m : JsMap DroneData.t) (seen : list DroneData.t) : Prop :=
  NoDup (map fst m)
  /\ (forall k v, Map_get m k = Some v ->
                  DroneData.device_id v = k /\ In v seen /\ newest_of_its_device seen v)
  /\ (forall o, In o seen -> Map_get m (DroneData.device_id o) <> None).

(** * Properties *)

(** ** The sort *)

Section SortFacts.
Context {A : Type} (leb : A -> A -> bool).
Hypothesis leb_total : forall a b, leb a b = false -> leb b a = true.
Hypothesis leb_trans : forall a b c, leb a b = true -> leb b c = true -> leb a c = true.

Lemma insert_by_perm (a : A) (l : list A) : Permutation (insert_by leb a l) (a :: l).
Proof.
  induction l as [|b l IH]; simpl.
  - apply Permutation_refl.
  - destruct (leb a b).
    + apply Permutation_refl.
    + eapply Permutation_trans; [apply perm_skip, IH | apply perm_swap].
Qed.

Lemma sort_by_perm (l : list A) : Permutation (sort_by leb l) l.
Proof.
  induction l as [|a l IH]; simpl.
  - apply perm_nil.
  - eapply Permutation_trans; [apply insert_by_perm | apply perm_skip, IH].
Qed.

Lemma insert_by_sorted (a : A) (l : list A) :
  StronglySorted (fun b c => leb b c = true) l ->
  StronglySorted (fun b c => leb b c = true) (insert_by leb a l).
Proof.
  induction l as [|b l IH]; simpl; intros Hs.
  - constructor; [constructor | constructor].
  - apply StronglySorted_inv in Hs as [Hl Hb].
    destruct (leb a b) eqn:Hab.
    + constructor.
      * constructor; assumption.
      * constructor; [exact Hab |].
        eapply Forall_impl; [| exact Hb].
        intros c Hbc. exact (leb_trans a b c Hab Hbc).
    + constructor.
      * apply IH, Hl.
      * eapply Permutation_Forall.
        { apply Permutation_sym, insert_by_perm. }
        constructor; [apply leb_total, Hab | exact Hb].
Qed.

Lemma sort_by_sorted (l : list A) :
  StronglySorted (fun b c => leb b c = true) (sort_by leb l).
Proof.
  induction l as [|a l IH]; simpl.
  - constructor.
  - apply insert_by_sorted, IH.
Qed.
End SortFacts.

Lemma Qle_bool_total (a b : Q) : Qle_bool a b = false -> Qle_bool b a = true.
Proof.
  intros H. apply Qle_bool_iff, Qlt_le_weak, Qnot_le_lt.
  intros Hle. apply Qle_bool_iff in Hle. congruence.
Qed.

Lemma Qle_bool_trans (a b c : Q) :
  Qle_bool a b = true -> Qle_bool b c = true -> Qle_bool a c = true.
Proof.
  rewrite !Qle_bool_iff. apply Qle_trans.
Qed.

Lemma StronglySorted_impl {A} (R S : A -> A -> Prop) (l : list A) :
  (forall a b, R a b -> S a b) -> StronglySorted R l -> StronglySorted S l.
Proof.
  intros HRS Hs. induction Hs as [|a l Hl IH Ha]; constructor.
  - exact IH.
  - eapply Forall_impl; [| exact Ha]. intros b. apply HRS.
Qed.

Lemma ORDER_BY_ASC_perm (rows : list DroneData.t) :
  Permutation (ORDER_BY_timestamp_ASC rows) rows.
Proof. apply sort_by_perm. Qed.

Lemma ORDER_BY_DESC_perm (rows : list DroneData.t) :
  Permutation (ORDER_BY_timestamp_DESC rows) rows.
Proof. apply sort_by_perm. Qed.

Lemma ORDER_BY_ASC_ascending (rows : list DroneData.t) :
  ascending (ORDER_BY_timestamp_ASC rows).
Proof.
  unfold ascending, ORDER_BY_timestamp_ASC.
  eapply StronglySorted_impl; [| apply sort_by_sorted].
  - intros a b H. apply Qle_bool_iff. exact H.
  - intros a b. apply Qle_bool_total.
  - intros a b c. apply Qle_bool_trans.
Qed.

Lemma ORDER_BY_DESC_descending (rows : list DroneData.t) :
  descending (ORDER_BY_timestamp_DESC rows).
Proof.
  unfold descending, ORDER_BY_timestamp_DESC.
  eapply StronglySorted_impl; [| apply sort_by_sorted].
  - intros a b H. apply Qle_bool_iff. exact H.
  - intros a b. apply Qle_bool_total.
  - intros a b c Hab Hbc. exact (Qle_bool_trans _ _ _ Hbc Hab).
Qed.

(** ** The monad *)

Lemma bind_Return {A B} (c : Js A) (k : A -> Js B) db b db' :
  bind c k db = (Return b, db') ->
  exists a db1, c db = (Return a, db1) /\ k a db1 = (Return b, db').
Proof.
  unfold bind. destruct (c db) as [[a|e] db1]; intros H.
  - exists a, db1. split; [reflexivity | exact H].
  - discriminate.
Qed.

Lemma pure_ret {A} (a : A) : pure (ret a).
Proof. intros db. reflexivity. Qed.

Lemma pure_throw {A} (e : JsError) : pure (@throw A e).
Proof. intros db. reflexivity. Qed.

Lemma pure_bind {A B} (c : Js A) (k : A -> Js B) :
  pure c -> (forall a, pure (k a)) -> pure (bind c k).
Proof.
  intros Hc Hk db. unfold bind.
  specialize (Hc db). destruct (c db) as [[a|e] db1]; simpl in Hc; subst db1.
  - apply Hk.
  - reflexivity.
Qed.

Lemma pure_bind_value {A} (v : Field A) : pure (bind_value v).
Proof. destruct v; intros db; reflexivity. Qed.

Lemma pure_get_velocity data p : pure (get_velocity data p).
Proof. unfold get_velocity. destruct (velocity data); intros db; reflexivity. Qed.

Create HintDb pure.
#[local] Hint Resolve pure_ret pure_throw pure_bind_value pure_get_velocity : pure.

Lemma pure_bind_insert data : pure (bind_insert data).
Proof.
  unfold bind_insert.
  repeat (apply pure_bind; [auto with pure | intros ?]).
  apply pure_ret.
Qed.

Lemma pure_map_bind dataArray : pure (UnityDataWriter.map_bind dataArray).
Proof.
  induction dataArray as [|data rest IH]; simpl.
  - apply pure_ret.
  - apply pure_bind; [apply pure_bind_insert | intros p].
    apply pure_bind; [exact IH | intros ps]. apply pure_ret.
Qed.

(** ** Binding a sample and building its row *)

Lemma bind_value_Return {A} (v : Field A) db o db' :
  bind_value v db = (Return o, db') ->
  db' = db /\ forall a, o = Some a -> v = Present a.
Proof.
  destruct v; simpl; unfold throw, ret; intros H; inversion H; subst.
  - split; [reflexivity | discriminate].
  - split; [reflexivity |]. intros b Hb. congruence.
Qed.

Lemma get_velocity_Return data p db f db' :
  get_velocity data p db = (Return f, db') ->
  db' = db /\ exists v, velocity data = Present v /\ f = p v.
Proof.
  unfold get_velocity. destruct (velocity data) as [| |v]; unfold throw, ret;
    intros H; inversion H; subst.
  split; [reflexivity |]. exists v. split; reflexivity.
Qed.

Lemma obind_Some {A B} (o : option A) (k : A -> option B) b :
  obind o k = Some b -> exists a, o = Some a /\ k a = Some b.
Proof.
  destruct o as [a|]; simpl; intros H; [| discriminate].
  exists a. split; [reflexivity | exact H].
Qed.

Ltac bind_inv H :=
  let a := fresh "a" in
  let db1 := fresh "db" in
  let Hc := fresh "Hc" in
  apply bind_Return in H as (a & db1 & Hc & H).

Ltac obind_inv H :=
  let a := fresh "c" in
  let Hc := fresh "Ho" in
  apply obind_Some in H as (a & Hc & H).

(** The row built from the bound parameters of a sample carries that sample. *)
Lemma bind_insert_new_row data db p db' rowid now r :
  bind_insert data db = (Return p, db') ->
  new_row rowid now p = Some r ->
  sample_of r = data /\ DroneData.id r = rowid /\ DroneData.created_at r = now.
Proof.
  intros Hb Hr. unfold bind_insert in Hb.
  do 3 (bind_inv Hb;
        match goal with
        | Hc : get_velocity _ _ _ = _ |- _ =>
            apply get_velocity_Return in Hc as (-> & ? & ? & ?)
        end).
  do 16 (bind_inv Hb;
         match goal with
         | Hc : bind_value _ _ = _ |- _ => apply bind_value_Return in Hc as (-> & ?)
         end).
  unfold ret in Hb. inversion Hb; subst p db'. clear Hb.
  unfold new_row in Hr. simpl in Hr.
  do 16 (obind_inv Hr).
  inversion Hr; subst r. clear Hr. simpl.
  repeat match goal with
         | Hf : forall a, ?o = Some a -> _, Ho : ?o = Some _ |- _ =>
             specialize (Hf _ Ho)
         end.
  subst.
  repeat match goal with
         | H1 : velocity data = Present ?v, H2 : velocity data = Present ?w |- _ =>
             assert (w = v) by congruence; subst w; clear H2
         end.
  split; [| split; reflexivity].
  destruct data as [f1 f2 f3 f4 f5 f6 f7 f8 f9 fv f11 f12 f13 f14]. simpl in *.
  subst. 
  match goal with
  | |- context [Present ?v] =>
      match type of v with Velocity => destruct v; simpl in *; subst; reflexivity end
  end.
Qed.

(** ** [writeData] *)

(** The parameters that a complete sample binds to. *)
Lemma bind_insert_sample_of r db :
  exists p, bind_insert (sample_of r) db = (Return p, db)
            /\ forall rowid now, new_row rowid now p <> None.
Proof.
  eexists. split.
  - reflexivity.
  - intros rowid now. discriminate.
Qed.

(** [writeData] appends one row that carries the sample, or throws and leaves
    the table as it was. *)
Lemma writeData_spec now data db :
  match UnityDataWriter.writeData now data db with
  | (Return _, db') =>
      exists r, sample_of r = data
                /\ DroneData.id r = sqlite_sequence db + 1
                /\ DroneData.created_at r = now
                /\ unity_data db' = unity_data db ++ [r]
                /\ sqlite_sequence db' = DroneData.id r
  | (Throw _, db') =>
      unity_data db' = unity_data db /\ sqlite_sequence db' = sqlite_sequence db
  end.
Proof.
  unfold UnityDataWriter.writeData, bind.
  pose proof (pure_bind_insert data db) as Hp.
  destruct (bind_insert data db) as [[p|e] db1] eqn:Hb; simpl in Hp; subst db1.
  - unfold run_insert, exec_insert. simpl.
    destruct (new_row (sqlite_sequence db + 1) now p) as [r|] eqn:Hr.
    + destruct (bind_insert_new_row _ _ _ _ _ _ _ Hb Hr) as (Hs & Hi & Hc).
      exists r. simpl. rewrite Hi. repeat split; assumption.
    + simpl. split; reflexivity.
  - split; reflexivity.
Qed.

(** A complete sample is written. *)
Lemma writeData_sample_of now r db :
  exists db', UnityDataWriter.writeData now (sample_of r) db = (Return tt, db').
Proof.
  eexists. reflexivity.
Qed.

(** ** [writeBatchData] *)

Lemma map_bind_Return dataArray db ps db' :
  UnityDataWriter.map_bind dataArray db = (Return ps, db') ->
  Forall2 (fun data p => forall rowid now r,
             new_row rowid now p = Some r -> sample_of r = data) dataArray ps.
Proof.
  revert db ps db'.
  induction dataArray as [|data rest IH]; simpl; intros db ps db' H.
  - unfold ret in H. inversion H. constructor.
  - bind_inv H. bind_inv H. unfold ret in H. inversion H; subst. clear H.
    constructor.
    + intros rowid now r Hr.
      exact (proj1 (bind_insert_new_row _ _ _ _ _ _ _ Hc Hr)).
    + eapply IH. eassumption.
Qed.

Lemma map_bind_sample_of rows db :
  exists ps, UnityDataWriter.map_bind (map sample_of rows) db = (Return ps, db)
             /\ Forall (fun p => forall rowid now, new_row rowid now p <> None) ps.
Proof.
  induction rows as [|r rows IH]; simpl.
  - exists []. split; [reflexivity | constructor].
  - destruct IH as (ps & Hps & Hall).
    destruct (bind_insert_sample_of r db) as (p & Hp & Hrow).
    exists (p :: ps). split.
    + unfold bind at 1. rewrite Hp. unfold bind at 1. rewrite Hps. reflexivity.
    + constructor; assumption.
Qed.

Lemma exec_batch_Some fails now statements :
  forall i t t',
    exec_batch fails i now statements t = Some t' ->
    exists rows,
      fst t' = fst t ++ rows
      /\ Forall2 (fun p r => exists rowid, new_row rowid now p = Some r) statements rows.
Proof.
  induction statements as [|p rest IH]; simpl; intros i t t' H.
  - inversion H; subst. exists []. split; [symmetry; apply app_nil_r | constructor].
  - destruct (fails i); [discriminate |].
    unfold exec_insert in H.
    destruct (new_row (snd t + 1) now p) as [r|] eqn:Hr; [| discriminate].
    apply IH in H as (rows & Hrows & Hall). simpl in Hrows.
    exists (r :: rows). split.
    + rewrite Hrows, <- app_assoc. reflexivity.
    + constructor; [exists (snd t + 1); exact Hr | exact Hall].
Qed.

Lemma exec_batch_no_failure now statements :
  Forall (fun p => forall rowid now, new_row rowid now p <> None) statements ->
  forall i t, exec_batch (fun _ => false) i now statements t <> None.
Proof.
  induction 1 as [|p rest Hp Hrest IH]; simpl; intros i t.
  - discriminate.
  - unfold exec_insert.
    destruct (new_row (snd t + 1) now p) as [r|] eqn:Hr.
    + apply IH.
    + exfalso. exact (Hp _ _ Hr).
Qed.

(** C1. [writeBatchData] is all or nothing. For every batch (so for every
    non-empty batch of valid samples), whichever statement of the batch is
    made to fail: when the call returns, the table is the old table followed
    by one stored record per sample of the batch, in order, each carrying its
    sample; when the call throws, the table and the AUTOINCREMENT counter are
    what they were before the call, so no member of the batch is persisted.
    And the call does return when no statement fails and every sample is
    complete. *)
Theorem writeBatchData_all_or_nothing :
  forall (fails : nat -> bool) (now : string) (dataArray : list UnityData)
         (db : D1Database),
    match UnityDataWriter.writeBatchData fails now dataArray db with
    | (Return _, db') =>
        exists rows, unity_data db' = unity_data db ++ rows
                     /\ map sample_of rows = dataArray
    | (Throw _, db') =>
        unity_data db' = unity_data db /\ sqlite_sequence db' = sqlite_sequence db
    end
    /\ ((forall i, fails i = false) ->
        (exists rows, dataArray = map sample_of rows) ->
        exists db', UnityDataWriter.writeBatchData fails now dataArray db
                    = (Return tt, db')).
Proof.
  intros fails now dataArray db. split.
  - unfold UnityDataWriter.writeBatchData, bind.
    pose proof (pure_map_bind dataArray db) as Hp.
    destruct (UnityDataWriter.map_bind dataArray db) as [[ps|e] db1] eqn:Hm;
      simpl in Hp; subst db1.
    + apply map_bind_Return in Hm.
      unfold batch.
      destruct (exec_batch fails 0 now ps (unity_data db, sqlite_sequence db))
        as [[rows' seq']|] eqn:He.
      * apply exec_batch_Some in He as (rows & Hrows & Hall). simpl in Hrows.
        exists rows. simpl. split; [exact Hrows |].
        clear Hrows. revert rows Hall.
        induction Hm as [|data p rest ps' Hdp Hrest IH]; intros rows Hall.
        -- inversion Hall. reflexivity.
        -- inversion Hall as [|p' r ps'' rows'' (rowid & Hr) Htl]; subst.
           simpl. rewrite (Hdp _ _ _ Hr), (IH _ Htl). reflexivity.
      * simpl. split; reflexivity.
    + split; reflexivity.
  - intros Hfails (rows & ->).
    unfold UnityDataWriter.writeBatchData, bind.
    destruct (map_bind_sample_of rows db) as (ps & -> & Hall).
    unfold batch.
    pose proof (exec_batch_no_failure now ps Hall 0%nat
                  (unity_data db, sqlite_sequence db)) as Hne.
    assert (Hext : forall i t, exec_batch fails i now ps t
                               = exec_batch (fun _ => false) i now ps t).
    { clear - Hfails. induction ps as [|p ps IH]; simpl; intros i t.
      - reflexivity.
      - rewrite Hfails. destruct (exec_insert now p t); [apply IH | reflexivity]. }
    rewrite Hext.
    destruct (exec_batch (fun _ => false) 0 now ps (unity_data db, sqlite_sequence db))
      as [[rows' seq']|]; [| congruence].
    eexists. reflexivity.
Qed.

(** A batch of two complete samples, nothing failing, is written. *)
Lemma writeBatchData_all_or_nothing_witness :
  exists db',
    UnityDataWriter.writeBatchData (fun _ => false) "t1"
      [sample "A" 100; sample "B" 200] empty_database = (Return tt, db').
Proof.
  apply (proj2 (writeBatchData_all_or_nothing (fun _ => false) "t1"
                  [sample "A" 100; sample "B" 200] empty_database)).
  - intros i. reflexivity.
  - exists [row 1 "A" 100 "t1"; row 2 "B" 200 "t1"]. reflexivity.
Defined.

(** A failure injected at the second of three statements, and a NULL in the
    second of three samples: nothing of either batch is in the table. *)
Example batch_failure_injected :
  UnityDataWriter.writeBatchData (fun i => Nat.eqb i 1) "t1"
    [sample "A" 100; sample "A" 300; sample "B" 200] empty_database
  = (Throw batch_aborted,
     {| unity_data := []; sqlite_sequence := 0; calls := [CallBatch 3] |}).
Proof. reflexivity. Qed.

Example batch_constraint_failure :
  let broken :=
    {| deviceId := Present "A"; formattedTime := Null; timestamp := Present 300%Q;
       latitude := Present 0%Q; longitude := Present 0%Q; pitch := Present 0%Q;
       yaw := Present 0%Q; roll := Present 0%Q; speed := Present 0%Q;
       velocity := Present {| x := Present 0%Q; y := Present 0%Q; z := Present 0%Q |};
       horizontalSpeed := Present 0%Q; verticalSpeed := Present 0%Q;
       flightDirection := Present 0%Q; groundDistance := Present 0%Q |} in
  UnityDataWriter.writeBatchData (fun _ => false) "t1"
    [sample "A" 100; broken; sample "B" 200] empty_database
  = (Throw batch_aborted,
     {| unity_data := []; sqlite_sequence := 0; calls := [CallBatch 3] |}).
Proof. reflexivity. Qed.

(** ** The SELECTs *)

Lemma is_integer_inject_Z (n : Z) : is_integer (inject_Z n) = true.
Proof.
  unfold is_integer, inject_Z. simpl. rewrite Z.mod_1_r. reflexivity.
Qed.

Lemma to_integer_inject_Z (n : Z) : to_integer (inject_Z n) = n.
Proof.
  unfold to_integer, inject_Z. simpl. apply Z.div_1_r.
Qed.

Lemma LIMIT_integer (n : Z) (rows : list DroneData.t) :
  LIMIT (Num (inject_Z n)) rows
  = Some (if n <? 0 then rows else firstn (Z.to_nat n) rows).
Proof.
  unfold LIMIT. rewrite is_integer_inject_Z, to_integer_inject_Z. reflexivity.
Qed.

Lemma filter_none {A} (f : A -> bool) (l : list A) :
  (forall a, In a l -> f a = false) -> filter f l = [].
Proof.
  induction l as [|a l IH]; simpl; intros H.
  - reflexivity.
  - rewrite (H a (or_introl eq_refl)). apply IH. intros b Hb. apply H. right. exact Hb.
Qed.

(** The greatest timestamp comes first: when the last row of [rows] is
    strictly newer than every other one, the descending order starts with it. *)
Lemma ORDER_BY_DESC_newest (rows : list DroneData.t) (r : DroneData.t) :
  (forall o, In o rows -> (DroneData.timestamp o < DroneData.timestamp r)%Q) ->
  exists rest, ORDER_BY_timestamp_DESC (rows ++ [r]) = r :: rest.
Proof.
  intros Hnewer.
  pose proof (ORDER_BY_DESC_perm (rows ++ [r])) as Hperm.
  pose proof (ORDER_BY_DESC_descending (rows ++ [r])) as Hdesc.
  destruct (ORDER_BY_timestamp_DESC (rows ++ [r])) as [|h rest].
  - apply Permutation_nil in Hperm. destruct rows; discriminate.
  - exists rest.
    assert (Hh : In h (rows ++ [r])).
    { eapply Permutation_in; [exact Hperm | left; reflexivity]. }
    apply in_app_or in Hh as [Hold | [-> | []]]; [| reflexivity].
    exfalso.
    assert (Hr : In r (h :: rest)).
    { eapply Permutation_in; [apply Permutation_sym; exact Hperm |].
      apply in_or_app. right. left. reflexivity. }
    destruct Hr as [-> | Hr].
    + exact (Qlt_irrefl _ (Hnewer _ Hold)).
    + apply StronglySorted_inv in Hdesc as [_ Hall].
      rewrite Forall_forall in Hall. specialize (Hall r Hr). simpl in Hall.
      exact (Qlt_not_le _ _ (Hnewer _ Hold) Hall).
Qed.

(** The round trip where the route accepts the sample: a complete sample
    with a non-empty [deviceId] and a non-zero [timestamp], posted to a
    database whose records of that device are all older, is what
    [getLatestData(deviceId, 1)] returns next. *)
Lemma round_trip (now : string) (r0 : DroneData.t) (db : D1Database) :
  DroneData.device_id r0 <> "" ->
  ~ (DroneData.timestamp r0 == 0)%Q ->
  (forall o, In o (unity_data db) -> DroneData.device_id o = DroneData.device_id r0 ->
             (DroneData.timestamp o < DroneData.timestamp r0)%Q) ->
  exists resp db1 r db2,
    POST with_database (Json (sample_of r0)) now db = (Return resp, db1)
    /\ status resp = 200
    /\ UnityDataWriter.getLatestData (DroneData.device_id r0) (Num 1) db1 = (Return [r], db2)
    /\ sample_of r = sample_of r0.
Proof.
  intros Hdev Hts Hnewer.
  assert (Hvalid : missing_deviceId_or_timestamp (sample_of r0) = false).
  { unfold missing_deviceId_or_timestamp. simpl.
    apply String.eqb_neq in Hdev. rewrite Hdev. simpl.
    destruct (Qeq_bool (DroneData.timestamp r0) 0) eqn:Hq; [| reflexivity].
    apply Qeq_bool_iff in Hq. contradiction. }
  unfold POST, try_catch. simpl. unfold bind at 1. simpl.
  rewrite Hvalid. unfold bind at 1.
  pose proof (writeData_spec now (sample_of r0) db) as Hw.
  destruct (writeData_sample_of now r0 db) as (db1 & Hdb1).
  rewrite Hdb1 in Hw. rewrite Hdb1. simpl.
  destruct Hw as (r & Hs & _ & _ & Hrows & _).
  assert (Hd : DroneData.device_id r = DroneData.device_id r0).
  { apply (f_equal deviceId) in Hs. simpl in Hs. congruence. }
  assert (Ht : DroneData.timestamp r = DroneData.timestamp r0).
  { apply (f_equal timestamp) in Hs. simpl in Hs. congruence. }
  eexists _, db1, r, _. split; [reflexivity |]. split; [reflexivity |].
  unfold UnityDataWriter.getLatestData, all_results.
  rewrite Hrows, filter_app. simpl.
  unfold device_is at 2. rewrite Hd, String.eqb_refl.
  destruct (ORDER_BY_DESC_newest
              (filter (device_is (DroneData.device_id r0)) (unity_data db)) r)
    as (rest & Hsorted).
  { intros o Ho. apply filter_In in Ho as [Ho Hod].
    rewrite Ht. apply Hnewer; [exact Ho |].
    apply String.eqb_eq. exact Hod. }
  rewrite Hsorted.
  split; [reflexivity | exact Hs].
Qed.

(** C2. The round trip fails at [timestamp = 0]. The sample of device
    drone-1 at time 0 is valid by the rule of the specification (a non-empty
    [deviceId], an integer [timestamp]), the database holds no record at all,
    and yet [POST] answers 400 "missing deviceId or timestamp" and stores
    nothing: [getLatestData("drone-1", 1)] returns the empty list, not the
    sample. *)
Theorem round_trip_fails_at_timestamp_zero :
  invalid_as_specified (sample "drone-1" 0) = false
  /\ POST with_database (Json (sample "drone-1" 0)) "t1" empty_database
     = (Return (json (ErrorBody "Invalid data format: missing deviceId or timestamp"
                        None) 400),
        empty_database)
  /\ fst (UnityDataWriter.getLatestData "drone-1" (Num 1) empty_database) = Return [].
Proof.
  repeat split.
Qed.

Lemma in_rangeb_iff d s e r : in_rangeb d s e r = true <-> in_range d s e r.
Proof.
  unfold in_rangeb, in_range, device_is.
  rewrite !andb_true_iff, String.eqb_eq, !Qle_bool_iff. tauto.
Qed.

(** C3. [getDataByTimeRange] returns, without an error and without a cap,
    exactly the stored records of the device whose timestamp lies between
    [startTime] and [endTime], both bounds included, each as often as the
    table holds it, in ascending order of timestamp. *)
Theorem getDataByTimeRange_exact :
  forall (db : D1Database) (deviceId : string) (startTime endTime : Q),
  exists l,
    fst (UnityDataWriter.getDataByTimeRange deviceId (Num startTime) (Num endTime) db)
    = Return l
    /\ Permutation l (filter (in_rangeb deviceId startTime endTime) (unity_data db))
    /\ (forall r, In r l <-> In r (unity_data db) /\ in_range deviceId startTime endTime r)
    /\ ascending l
    /\ List.length l
       = List.length (filter (in_rangeb deviceId startTime endTime) (unity_data db)).
Proof.
  intros db d s e.
  exists (ORDER_BY_timestamp_ASC (filter (in_rangeb d s e) (unity_data db))).
  pose proof (ORDER_BY_ASC_perm (filter (in_rangeb d s e) (unity_data db))) as Hperm.
  split; [reflexivity |]. split; [exact Hperm |]. split; [| split].
  - intros r. rewrite <- in_rangeb_iff, <- filter_In. split; intros H.
    + eapply Permutation_in; [exact Hperm | exact H].
    + eapply Permutation_in; [apply Permutation_sym; exact Hperm | exact H].
  - apply ORDER_BY_ASC_ascending.
  - apply Permutation_length. exact Hperm.
Qed.

(** The scenario: the range of A from 100 to 300 is A at 100, then A at 300. *)
Example scenario_range :
  fst (GET with_database
         {| get_deviceId := Some "A"; get_limit := None;
            get_startTime := Some "100"; get_endTime := Some "300" |} scenario)
  = Return (json (RangeBody [row 1 "A" 100 "t1"; row 2 "A" 300 "t2"] "A" "100" "300" 2)
              200).
Proof. reflexivity. Qed.

(** C7. With [startTime > endTime], [getDataByTimeRange] returns the empty
    list; it does not throw, and the bounds are not checked before the
    SELECT is sent. *)
Theorem getDataByTimeRange_reversed_bounds :
  forall (db : D1Database) (deviceId : string) (startTime endTime : Q),
    (endTime < startTime)%Q ->
    UnityDataWriter.getDataByTimeRange deviceId (Num startTime) (Num endTime) db
    = (Return [], received (CallAll SELECT_time_range) db).
Proof.
  intros db d s e Hlt.
  unfold UnityDataWriter.getDataByTimeRange, all_results.
  rewrite filter_none; [reflexivity |].
  intros r _. simpl.
  destruct (Qle_bool s (DroneData.timestamp r)) eqn:Hs;
    [| rewrite andb_false_r; reflexivity].
  destruct (Qle_bool (DroneData.timestamp r) e) eqn:He;
    [| rewrite andb_false_r; reflexivity].
  exfalso. apply Qle_bool_iff in Hs, He.
  exact (Qlt_not_le _ _ Hlt (Qle_trans _ _ _ Hs He)).
Qed.

Lemma getDataByTimeRange_reversed_bounds_witness :
  UnityDataWriter.getDataByTimeRange "A" (Num 300) (Num 100) scenario
  = (Return [], received (CallAll SELECT_time_range) scenario).
Proof.
  apply (getDataByTimeRange_reversed_bounds scenario "A" 300 100).
  reflexivity.
Defined.

Lemma truthy_param_nonempty (s : string) : s <> "" -> truthy_param (Some s) = Some s.
Proof.
  destruct s; [intros H; contradiction H; reflexivity | reflexivity].
Qed.




(** ** The latest records of all devices *)

(** What the scenario holds, and what the latest ten of it are. *)
Example scenario_table :
  unity_data scenario
  = [row 1 "A" 100 "t1"; row 2 "A" 300 "t2"; row 3 "B" 200 "t3"].
Proof. reflexivity. Qed.




(** ** The route: validation *)

(** C4, as stated, fails: a timestamp of 3/2 is not representable as an
    integer, so the sample is invalid by the rule of the specification, but
    the route does not find anything missing, answers 200 and stores the
    record. *)
Lemma validation_accepts_fractional_timestamp :
  invalid_as_specified (sample "A" (3 # 2)) = true
  /\ missing_deviceId_or_timestamp (sample "A" (3 # 2)) = false
  /\ POST with_database (Json (sample "A" (3 # 2))) "t1" empty_database
     = (Return (json (SavedBody "Data saved successfully" (Present "A")
                        (Present (3 # 2)) (Present "1970-01-01 00:00:00")) 200),
        {| unity_data := [row 1 "A" (3 # 2) "t1"];
           sqlite_sequence := 1;
           calls := [CallRun INSERT_unity_data] |}).
Proof.
  repeat split.
Qed.

(** C4, amended. The route finds a sample invalid whenever [deviceId] is
    absent, null or empty, or [timestamp] is absent or null; it finds nothing
    missing in a sample whose [deviceId] is a non-empty string and whose
    [timestamp] is a number other than zero, integer or not, whatever the
    other fields hold. A sample with an empty [deviceId] is answered 400 and
    the database is left as it was: no record is created. *)
Theorem validation_as_coded :
  forall data : UnityData,
    (deviceId data = Absent \/ deviceId data = Null \/ deviceId data = Present ""
     \/ timestamp data = Absent \/ timestamp data = Null ->
     missing_deviceId_or_timestamp data = true)
    /\ (forall d t, deviceId data = Present d -> d <> "" ->
                    timestamp data = Present t -> ~ (t == 0)%Q ->
                    missing_deviceId_or_timestamp data = false)
    /\ (deviceId data = Present "" ->
        forall context now db,
          no_database (getCloudflareEnv context) = false ->
          POST context (Json data) now db = (Return rejected, db)).
Proof.
  intros data. unfold missing_deviceId_or_timestamp. split; [| split].
  - intros [H | [H | [H | [H | H]]]]; rewrite H; simpl;
      try reflexivity; apply orb_true_r.
  - intros d t Hd Hne Ht Hz. rewrite Hd, Ht. simpl.
    apply String.eqb_neq in Hne. rewrite Hne. simpl.
    destruct (Qeq_bool t 0) eqn:Hq; [| reflexivity].
    apply Qeq_bool_iff in Hq. contradiction.
  - intros Hd context now db Hdb.
    unfold POST, try_catch. rewrite Hdb. simpl. unfold bind. simpl.
    unfold missing_deviceId_or_timestamp. rewrite Hd. reflexivity.
Qed.

Lemma validation_as_coded_witness :
  missing_deviceId_or_timestamp (sample "" 100) = true
  /\ missing_deviceId_or_timestamp (sample "A" (-5 # 2)) = false
  /\ POST with_database (Json (sample "" 100)) "t1" scenario = (Return rejected, scenario).
Proof.
  destruct (validation_as_coded (sample "" 100)) as (Hinvalid & _ & Hpost).
  destruct (validation_as_coded (sample "A" (-5 # 2))) as (_ & Hvalid & _).
  split; [| split].
  - apply Hinvalid. right. right. left. reflexivity.
  - apply (Hvalid "A" (-5 # 2)); [reflexivity | discriminate | reflexivity |].
    intros H. discriminate H.
  - apply Hpost; reflexivity.
Defined.



(** ** The route: which query a GET runs *)

(** C9. A GET with a non-empty [deviceId] and exactly one of [startTime] and
    [endTime] is answered as the same GET without any time bound: when the
    binding is there, the route runs [getLatestData(deviceId, limit)], the
    SELECT of the latest records of the device, and answers with its result
    (or with the error that this SELECT throws); no range query is run and
    the missing bound is not reported. *)
Theorem GET_one_bound_is_latest_of_device :
  forall (context : CloudflareContext) (searchParams : URLSearchParams)
         (deviceId : string) (db : D1Database),
    get_deviceId searchParams = Some deviceId ->
    deviceId <> "" ->
    (get_startTime searchParams = None /\ get_endTime searchParams <> None)
    \/ (get_startTime searchParams <> None /\ get_endTime searchParams = None) ->
    GET context searchParams db = GET context (without_bounds searchParams) db
    /\ (no_database (getCloudflareEnv context) = false ->
        GET context searchParams db
        = try_catch
            (data <- UnityDataWriter.getLatestData deviceId (limit_of searchParams) ;;
             ret (json (DeviceBody data deviceId (limit_of searchParams)
                          (List.length data)) 200))
            (fun error => ret (json (ErrorBody "Failed to query data" (Some error)) 500))
            db
        /\ calls (snd (GET context searchParams db))
           = calls db ++ [CallAll SELECT_latest_of_device]).
Proof.
  intros context sp d db Hd Hne Hone.
  assert (Hlatest :
            no_database (getCloudflareEnv context) = false ->
            GET context sp db
            = try_catch
                (data <- UnityDataWriter.getLatestData d (limit_of sp) ;;
                 ret (json (DeviceBody data d (limit_of sp) (List.length data)) 200))
                (fun error =>
                   ret (json (ErrorBody "Failed to query data" (Some error)) 500))
                db).
  { intros Hdb. unfold GET, try_catch. rewrite Hdb, Hd.
    rewrite (truthy_param_nonempty d Hne). fold (limit_of sp).
    destruct Hone as [[Hs He] | [Hs He]].
    - rewrite Hs. reflexivity.
    - rewrite He. simpl.
      destruct (get_startTime sp) as [[|c s]|]; reflexivity. }
  split.
  - unfold GET at 1 2, try_catch.
    destruct (no_database (getCloudflareEnv context)); [reflexivity |].
    unfold without_bounds. simpl. rewrite Hd.
    rewrite (truthy_param_nonempty d Hne).
    destruct Hone as [[Hs He] | [Hs He]].
    + rewrite Hs. reflexivity.
    + rewrite He. simpl.
      destruct (get_startTime sp) as [[|c s]|]; reflexivity.
  - intros Hdb. split; [exact (Hlatest Hdb) |].
    rewrite (Hlatest Hdb).
    unfold try_catch, bind, UnityDataWriter.getLatestData, all_results.
    destruct (LIMIT (limit_of sp)
                (ORDER_BY_timestamp_DESC (filter (device_is d) (unity_data db))));
      reflexivity.
Qed.

Lemma GET_one_bound_is_latest_of_device_witness :
  GET with_database
    {| get_deviceId := Some "A"; get_limit := None;
       get_startTime := Some "100"; get_endTime := None |} scenario
  = GET with_database
      {| get_deviceId := Some "A"; get_limit := None;
         get_startTime := None; get_endTime := None |} scenario.
Proof.
  refine (proj1 (GET_one_bound_is_latest_of_device with_database
                   {| get_deviceId := Some "A"; get_limit := None;
                      get_startTime := Some "100"; get_endTime := None |}
                   "A" scenario _ _ _)).
  - reflexivity.
  - discriminate.
  - right. split; [discriminate | reflexivity].
Defined.

(** The answer to that request: the two records of device A, newest first;
    the bound 100 has no part in it. *)
Example GET_one_bound_answer :
  fst (GET with_database
         {| get_deviceId := Some "A"; get_limit := None;
            get_startTime := Some "100"; get_endTime := None |} scenario)
  = Return (json (DeviceBody [row 2 "A" 300 "t2"; row 1 "A" 100 "t1"] "A" (Num 10) 2)
              200).
Proof. reflexivity. Qed.

(** ** The route: no database *)

(** C10. When the binding is not there (the context cannot be had, has no
    [env], or [env] has no [DB]), [POST] and [GET] answer 500 "Database not
    available" and ask nothing of the database; [POST] does so whatever the
    body is, before it is parsed or checked. *)
Theorem no_database_is_a_storage_failure :
  forall (context : CloudflareContext) (db : D1Database),
    no_database (getCloudflareEnv context) = true ->
    (forall request now, POST context request now db = (Return database_not_available, db))
    /\ (forall searchParams, GET context searchParams db = (Return database_not_available, db)).
Proof.
  intros context db Hno. split.
  - intros request now. unfold POST, try_catch. rewrite Hno. reflexivity.
  - intros sp. unfold GET, try_catch. rewrite Hno. reflexivity.
Qed.

Lemma no_database_is_a_storage_failure_witness :
  POST ContextThrows (Json (sample "" 0)) "t1" scenario
  = (Return database_not_available, scenario)
  /\ POST (Context (Some {| DB := None |})) NotJson "t1" scenario
     = (Return database_not_available, scenario)
  /\ GET (Context None)
       {| get_deviceId := Some "A"; get_limit := None;
          get_startTime := None; get_endTime := None |} scenario
     = (Return database_not_available, scenario).
Proof.
  split; [| split].
  - apply (no_database_is_a_storage_failure ContextThrows scenario). reflexivity.
  - apply (no_database_is_a_storage_failure (Context (Some {| DB := None |})) scenario).
    reflexivity.
  - apply (no_database_is_a_storage_failure (Context None) scenario). reflexivity.
Defined.

(** * Further properties *)

(** ** What [stmt.bind] throws, and when *)

Lemma throws_only_ret {A} (P : JsError -> Prop) (a : A) : throws_only P (ret a).
Proof. intros db e db' H. discriminate. Qed.

Lemma throws_only_throw {A} (P : JsError -> Prop) (e : JsError) :
  P e -> throws_only P (@throw A e).
Proof. intros HP db e' db' H. inversion H; subst. exact HP. Qed.

Lemma throws_only_bind {A B} (P : JsError -> Prop) (c : Js A) (k : A -> Js B) :
  throws_only P c -> (forall a, throws_only P (k a)) -> throws_only P (bind c k).
Proof.
  intros Hc Hk db e db' H. unfold bind in H.
  destruct (c db) as [[a|e1] db1] eqn:Hcdb.
  - exact (Hk a db1 e db' H).
  - inversion H; subst. exact (Hc db e db' Hcdb).
Qed.

Lemma throws_only_bind_value {A} (v : Field A) : throws_only bind_error (bind_value v).
Proof.
  destruct v; simpl.
  - apply throws_only_throw. right. reflexivity.
  - apply throws_only_ret.
  - apply throws_only_ret.
Qed.

Lemma throws_only_get_velocity data p : throws_only bind_error (get_velocity data p).
Proof.
  unfold get_velocity. destruct (velocity data).
  - apply throws_only_throw. left. reflexivity.
  - apply throws_only_throw. left. reflexivity.
  - apply throws_only_ret.
Qed.

Lemma throws_only_bind_insert data : throws_only bind_error (bind_insert data).
Proof.
  unfold bind_insert.
  repeat (apply throws_only_bind;
          [first [apply throws_only_get_velocity | apply throws_only_bind_value]
          | intros ?]).
  apply throws_only_ret.
Qed.

Lemma bind_value_Return_present {A} (v : Field A) db o db' :
  bind_value v db = (Return o, db') -> db' = db /\ is_absent v = false.
Proof.
  destruct v; simpl; unfold throw, ret; intros H; inversion H; subst;
    split; reflexivity.
Qed.

(** What [bind] takes has an object for [velocity] and no [undefined]. *)
Lemma bind_insert_bindable data db p db' :
  bind_insert data db = (Return p, db') -> unbindable data = false.
Proof.
  intros Hb. unfold bind_insert in Hb.
  do 3 (bind_inv Hb;
        match goal with
        | Hc : get_velocity _ _ _ = _ |- _ =>
            apply get_velocity_Return in Hc as (-> & ? & ? & ?)
        end).
  do 16 (bind_inv Hb;
         match goal with
         | Hc : bind_value _ _ = _ |- _ =>
             apply bind_value_Return_present in Hc as (-> & ?)
         end).
  clear Hb. subst.
  repeat match goal with
         | H1 : velocity data = Present ?v, H2 : velocity data = Present ?w |- _ =>
             assert (w = v) by congruence; subst w; clear H2
         end.
  unfold unbindable.
  match goal with H : velocity data = Present _ |- _ => rewrite H end.
  repeat match goal with
         | H : is_absent _ = false |- _ => rewrite H; clear H
         end.
  reflexivity.
Qed.

(** An unbindable sample makes [bind] throw, before anything is asked of the
    database. *)
Lemma bind_insert_unbindable data db :
  unbindable data = true ->
  exists e, bind_error e /\ bind_insert data db = (Throw e, db).
Proof.
  intros Hu.
  pose proof (pure_bind_insert data db) as Hp.
  destruct (bind_insert data db) as [[p|e] db1] eqn:Hb; simpl in Hp; subst db1.
  - apply bind_insert_bindable in Hb. congruence.
  - exists e. split; [| reflexivity].
    exact (throws_only_bind_insert data db e db Hb).
Qed.

(** ** [POST] *)

Lemma missing_sample_of (r0 : DroneData.t) :
  DroneData.device_id r0 <> "" -> ~ (DroneData.timestamp r0 == 0)%Q ->
  missing_deviceId_or_timestamp (sample_of r0) = false.
Proof.
  intros Hdev Hts. unfold missing_deviceId_or_timestamp. simpl.
  apply String.eqb_neq in Hdev. rewrite Hdev. simpl.
  destruct (Qeq_bool (DroneData.timestamp r0) 0) eqn:Hq; [| reflexivity].
  apply Qeq_bool_iff in Hq. contradiction.
Qed.

(** X1. A complete sample with a non-empty [deviceId] and a non-zero
    [timestamp] is answered 200 with its [deviceId], [timestamp] and
    [formattedTime] echoed; one INSERT is run, and the table gains exactly one
    row at its end: the sample with the next [id] and the current time. *)
Theorem POST_stores_the_sample :
  forall (context : CloudflareContext) (r0 : DroneData.t) (now : string) (db : D1Database),
    no_database (getCloudflareEnv context) = false ->
    DroneData.device_id r0 <> "" ->
    ~ (DroneData.timestamp r0 == 0)%Q ->
    POST context (Json (sample_of r0)) now db
    = (Return (json (SavedBody "Data saved successfully"
                       (Present (DroneData.device_id r0)) (Present (DroneData.timestamp r0))
                       (Present (DroneData.formatted_time r0))) 200),
       {| unity_data := unity_data db ++ [stored (sqlite_sequence db + 1) now r0];
          sqlite_sequence := sqlite_sequence db + 1;
          calls := calls db ++ [CallRun INSERT_unity_data] |}).
Proof.
  intros context r0 now db Hdb Hdev Hts.
  unfold POST, try_catch. rewrite Hdb. simpl. unfold bind at 1. simpl.
  rewrite (missing_sample_of r0 Hdev Hts). reflexivity.
Qed.

Lemma POST_stores_the_sample_witness :
  POST with_database (Json (sample_of (row 0 "A" 100 ""))) "t1" empty_database
  = (Return (json (SavedBody "Data saved successfully" (Present "A") (Present 100%Q)
                     (Present "1970-01-01 00:00:00")) 200),
     {| unity_data := [row 1 "A" 100 "t1"];
        sqlite_sequence := 1;
        calls := [CallRun INSERT_unity_data] |}).
Proof.
  apply (POST_stores_the_sample with_database (row 0 "A" 100 "") "t1" empty_database).
  - reflexivity.
  - discriminate.
  - intros H. discriminate H.
Defined.

(** X2. [POST] never throws: it answers 200, 400 or 500. It answers 200 only
    to a JSON object, and then the table has gained one row that carries the
    sample, with the next [id]; with 400 and with 500 the table and the
    AUTOINCREMENT counter are what they were. *)
Theorem POST_answers_and_stores_only_on_200 :
  forall (context : CloudflareContext) (request : RequestBody) (now : string)
         (db : D1Database),
  exists resp db',
    POST context request now db = (Return resp, db')
    /\ ((status resp = 200
         /\ exists data r,
              request = Json data /\ sample_of r = data
              /\ DroneData.id r = sqlite_sequence db + 1 /\ DroneData.created_at r = now
              /\ unity_data db' = unity_data db ++ [r]
              /\ sqlite_sequence db' = sqlite_sequence db + 1)
        \/ ((status resp = 400 \/ status resp = 500) /\ tables db' = tables db)).
Proof.
  intros context request now db. unfold POST, try_catch.
  destruct (no_database (getCloudflareEnv context)).
  { do 2 eexists. split; [reflexivity |]. right. split; [right |]; reflexivity. }
  destruct request as [| |data]; simpl.
  - do 2 eexists. split; [reflexivity |]. right. split; [right |]; reflexivity.
  - do 2 eexists. split; [reflexivity |]. right. split; [right |]; reflexivity.
  - unfold bind at 1. simpl.
    destruct (missing_deviceId_or_timestamp data).
    { do 2 eexists. split; [reflexivity |]. right. split; [left |]; reflexivity. }
    unfold bind.
    pose proof (writeData_spec now data db) as Hw.
    destruct (UnityDataWriter.writeData now data db) as [[[]|e] db1].
    + destruct Hw as (r & Hs & Hid & Hnow & Hrows & Hseq).
      do 2 eexists. split; [reflexivity |]. left. split; [reflexivity |].
      exists data, r. repeat split; try assumption. congruence.
    + destruct Hw as (Hrows & Hseq).
      do 2 eexists. split; [reflexivity |]. right. split; [right; reflexivity |].
      unfold tables. congruence.
Qed.

(** X3. A sample that passes the check of the route but has an [undefined]
    among the values to bind, or no [velocity] object, is answered 500 "Failed
    to save data" with a TypeError or a D1_TYPE_ERROR, and the database is not
    asked anything: its state, calls included, is unchanged. *)
Theorem POST_unbindable_sample :
  forall (context : CloudflareContext) (data : UnityData) (now : string)
         (db : D1Database),
    no_database (getCloudflareEnv context) = false ->
    missing_deviceId_or_timestamp data = false ->
    unbindable data = true ->
    exists e, bind_error e
              /\ POST context (Json data) now db
                 = (Return (failed "Failed to save data" e), db).
Proof.
  intros context data now db Hdb Hmissing Hu.
  destruct (bind_insert_unbindable data db Hu) as (e & He & Hb).
  exists e. split; [exact He |].
  unfold POST, try_catch. rewrite Hdb. simpl. unfold bind at 1. simpl.
  rewrite Hmissing. unfold bind at 1. unfold UnityDataWriter.writeData.
  unfold bind at 1. rewrite Hb. reflexivity.
Qed.

Lemma POST_unbindable_sample_witness :
  exists e,
    bind_error e
    /\ POST with_database
         (Json {| deviceId := Present "A"; formattedTime := Present "noon";
                  timestamp := Present 100%Q; latitude := Absent;
                  longitude := Present 0%Q; pitch := Present 0%Q; yaw := Present 0%Q;
                  roll := Present 0%Q; speed := Present 0%Q;
                  velocity := Present {| x := Present 0%Q; y := Present 0%Q;
                                         z := Present 0%Q |};
                  horizontalSpeed := Present 0%Q; verticalSpeed := Present 0%Q;
                  flightDirection := Present 0%Q; groundDistance := Present 0%Q |})
         "t1" scenario
       = (Return (failed "Failed to save data" e), scenario).
Proof.
  apply POST_unbindable_sample; reflexivity.
Defined.

(** ** [writeBatchData], more closely *)

Lemma bind_insert_stored r db :
  exists p, bind_insert (sample_of r) db = (Return p, db)
            /\ forall rowid now, new_row rowid now p = Some (stored rowid now r).
Proof.
  eexists. split.
  - reflexivity.
  - intros rowid now. reflexivity.
Qed.

Lemma map_bind_stored rows db :
  exists ps, UnityDataWriter.map_bind (map sample_of rows) db = (Return ps, db)
             /\ Forall2 (fun r p => forall rowid now,
                           new_row rowid now p = Some (stored rowid now r)) rows ps.
Proof.
  induction rows as [|r rows IH]; simpl.
  - exists []. split; [reflexivity | constructor].
  - destruct IH as (ps & Hps & Hall).
    destruct (bind_insert_stored r db) as (p & Hp & Hrow).
    exists (p :: ps). split.
    + unfold bind at 1. rewrite Hp. unfold bind at 1. rewrite Hps. reflexivity.
    + constructor; assumption.
Qed.

Lemma exec_batch_stored fails now rows ps :
  (forall i, fails i = false) ->
  Forall2 (fun r p => forall rowid now,
             new_row rowid now p = Some (stored rowid now r)) rows ps ->
  forall i tbl seq,
    exec_batch fails i now ps (tbl, seq)
    = Some (tbl ++ stored_batch seq now rows, seq + Z.of_nat (List.length rows)).
Proof.
  intros Hfails Hall.
  induction Hall as [|r p rows ps Hp Hrest IH]; intros i tbl seq.
  - simpl. rewrite app_nil_r, Z.add_0_r. reflexivity.
  - cbn [exec_batch]. rewrite Hfails. unfold exec_insert. cbn [fst snd].
    rewrite Hp, IH. cbn [stored_batch List.length].
    rewrite <- app_assoc. f_equal. f_equal. lia.
Qed.

Lemma Forall2_length_eq {A B} (R : A -> B -> Prop) l1 l2 :
  Forall2 R l1 l2 -> List.length l1 = List.length l2.
Proof.
  induction 1; simpl; congruence.
Qed.



Lemma throws_only_map_bind dataArray :
  throws_only bind_error (UnityDataWriter.map_bind dataArray).
Proof.
  induction dataArray as [|data rest IH]; simpl.
  - apply throws_only_ret.
  - apply throws_only_bind; [apply throws_only_bind_insert | intros p].
    apply throws_only_bind; [exact IH | intros ps]. apply throws_only_ret.
Qed.

Lemma map_bind_bindable dataArray db ps db' :
  UnityDataWriter.map_bind dataArray db = (Return ps, db') ->
  Forall (fun data => unbindable data = false) dataArray.
Proof.
  revert db ps db'.
  induction dataArray as [|data rest IH]; simpl; intros db ps db' H.
  - constructor.
  - bind_inv H. bind_inv H. constructor.
    + eapply bind_insert_bindable. eassumption.
    + eapply IH. eassumption.
Qed.

(** X5. A batch with one sample that [bind] cannot take (an [undefined]
    value, no [velocity] object) throws while the statements are prepared:
    [db.batch] is never called and the database state, calls included, is
    unchanged, wherever in the batch that sample is. *)
Theorem writeBatchData_unbindable_member :
  forall (fails : nat -> bool) (now : string) (dataArray : list UnityData)
         (db : D1Database),
    Exists (fun data => unbindable data = true) dataArray ->
    exists e, bind_error e
              /\ UnityDataWriter.writeBatchData fails now dataArray db = (Throw e, db).
Proof.
  intros fails now dataArray db Hex.
  unfold UnityDataWriter.writeBatchData, bind.
  pose proof (pure_map_bind dataArray db) as Hp.
  destruct (UnityDataWriter.map_bind dataArray db) as [[ps|e] db1] eqn:Hm;
    simpl in Hp; subst db1.
  - apply map_bind_bindable in Hm. exfalso.
    apply Exists_exists in Hex as (data & Hin & Hu).
    rewrite Forall_forall in Hm. specialize (Hm data Hin). congruence.
  - exists e. split; [| reflexivity].
    exact (throws_only_map_bind dataArray db e db Hm).
Qed.

Lemma writeBatchData_unbindable_member_witness :
  exists e,
    bind_error e
    /\ UnityDataWriter.writeBatchData (fun _ => false) "t4"
         [sample "C" 50;
          {| deviceId := Present "A"; formattedTime := Present "noon";
             timestamp := Present 400%Q; latitude := Present 0%Q;
             longitude := Present 0%Q; pitch := Present 0%Q; yaw := Present 0%Q;
             roll := Present 0%Q; speed := Present 0%Q; velocity := Absent;
             horizontalSpeed := Present 0%Q; verticalSpeed := Present 0%Q;
             flightDirection := Present 0%Q; groundDistance := Present 0%Q |}]
         scenario
       = (Throw e, scenario).
Proof.
  apply writeBatchData_unbindable_member.
  apply Exists_cons_tl, Exists_cons_hd. reflexivity.
Defined.

Lemma writeData_stored now r db :
  UnityDataWriter.writeData now (sample_of r) db
  = (Return tt,
     {| unity_data := unity_data db ++ [stored (sqlite_sequence db + 1) now r];
        sqlite_sequence := sqlite_sequence db + 1;
        calls := calls db ++ [CallRun INSERT_unity_data] |}).
Proof. reflexivity. Qed.

Lemma writeEach_stored now rows :
  forall db,
    writeEach now (map sample_of rows) db
    = (Return tt,
       {| unity_data := unity_data db ++ stored_batch (sqlite_sequence db) now rows;
          sqlite_sequence := sqlite_sequence db + Z.of_nat (List.length rows);
          calls := calls db ++ repeat (CallRun INSERT_unity_data) (List.length rows) |}).
Proof.
  induction rows as [|r rows IH]; intros db.
  - simpl. unfold ret. rewrite !app_nil_r, Z.add_0_r. destruct db; reflexivity.
  - cbn [map writeEach]. unfold bind. rewrite writeData_stored, IH.
    cbn [unity_data sqlite_sequence calls stored_batch List.length repeat].
    rewrite <- !app_assoc. f_equal. f_equal. lia.
Qed.

(** X6. For complete samples and no failure, one [writeBatchData] leaves the
    table and the counter that as many [writeData] in a row leave; the
    database has received one batch call instead of one run per sample. *)
Theorem writeBatchData_as_repeated_writeData :
  forall (fails : nat -> bool) (now : string) (rows : list DroneData.t) (db : D1Database),
    (forall i, fails i = false) ->
    exists db1 db2,
      UnityDataWriter.writeBatchData fails now (map sample_of rows) db = (Return tt, db1)
      /\ writeEach now (map sample_of rows) db = (Return tt, db2)
      /\ tables db1 = tables db2
      /\ calls db1 = calls db ++ [CallBatch (List.length rows)]
      /\ calls db2 = calls db ++ repeat (CallRun INSERT_unity_data) (List.length rows).
Proof.
  intros fails now rows db Hfails.
  unfold UnityDataWriter.writeBatchData, bind.
  destruct (map_bind_stored rows db) as (ps & -> & Hall).
  unfold batch.
  rewrite (exec_batch_stored fails now rows ps Hfails Hall).
  rewrite <- (Forall2_length_eq _ _ _ Hall).
  rewrite writeEach_stored.
  do 2 eexists. repeat split.
Qed.

Lemma writeBatchData_as_repeated_writeData_witness :
  exists db1 db2,
    UnityDataWriter.writeBatchData (fun _ => false) "t4"
      (map sample_of [row 0 "C" 50 ""; row 0 "A" 400 ""]) scenario = (Return tt, db1)
    /\ writeEach "t4" (map sample_of [row 0 "C" 50 ""; row 0 "A" 400 ""]) scenario
       = (Return tt, db2)
    /\ tables db1 = tables db2
    /\ calls db1 = calls scenario ++ [CallBatch 2]
    /\ calls db2 = calls scenario ++ repeat (CallRun INSERT_unity_data) 2.
Proof.
  apply (writeBatchData_as_repeated_writeData (fun _ => false) "t4"
           [row 0 "C" 50 ""; row 0 "A" 400 ""] scenario).
  intros i. reflexivity.
Defined.

(** ** The ids of the table *)

Lemma new_row_id rowid now p r :
  new_row rowid now p = Some r -> DroneData.id r = rowid /\ DroneData.created_at r = now.
Proof.
  intros Hr. unfold new_row in Hr.
  do 16 (obind_inv Hr).
  inversion Hr; subst r. split; reflexivity.
Qed.

Lemma StronglySorted_snoc {A} (R : A -> A -> Prop) (l : list A) (a : A) :
  StronglySorted R l -> Forall (fun b => R b a) l -> StronglySorted R (l ++ [a]).
Proof.
  induction 1 as [|b l Hl IH Hb]; simpl; intros Ha.
  - constructor; constructor.
  - apply Forall_cons_iff in Ha as [Hba Ha].
    constructor; [apply IH, Ha |].
    apply Forall_app. split; [exact Hb | constructor; [exact Hba | constructor]].
Qed.

Lemma in_order_exec_insert now p t t' :
  in_order t -> exec_insert now p t = Some t' -> in_order t'.
Proof.
  intros [Hsorted Hbound] H. unfold exec_insert in H.
  destruct (new_row (snd t + 1) now p) as [r|] eqn:Hr; [| discriminate].
  inversion H; subst t'. clear H.
  apply new_row_id in Hr as [Hid _].
  split; simpl.
  - rewrite map_app. simpl. apply StronglySorted_snoc; [exact Hsorted |].
    rewrite Forall_map. eapply Forall_impl; [| exact Hbound].
    intros o Ho. simpl in Ho. lia.
  - apply Forall_app. split.
    + eapply Forall_impl; [| exact Hbound]. intros o Ho. simpl in Ho. lia.
    + constructor; [lia | constructor].
Qed.

Lemma in_order_exec_batch fails now statements :
  forall i t t',
    in_order t -> exec_batch fails i now statements t = Some t' -> in_order t'.
Proof.
  induction statements as [|p rest IH]; simpl; intros i t t' Ht H.
  - inversion H; subst. exact Ht.
  - destruct (fails i); [discriminate |].
    destruct (exec_insert now p t) as [t1|] eqn:He; [| discriminate].
    eapply IH; [| exact H]. eapply in_order_exec_insert; eassumption.
Qed.

Lemma run_insert_inserted now p db : inserted_into db (snd (run_insert now p db)).
Proof.
  unfold run_insert.
  destruct (exec_insert now p (unity_data db, sqlite_sequence db)) as [[rows seq]|] eqn:He.
  - right. exists (fun _ => false), now, [p]. unfold tables. simpl. rewrite He. reflexivity.
  - left. reflexivity.
Qed.

Lemma writeData_inserted now data db :
  inserted_into db (snd (UnityDataWriter.writeData now data db)).
Proof.
  unfold UnityDataWriter.writeData, bind.
  pose proof (pure_bind_insert data db) as Hp.
  destruct (bind_insert data db) as [[p|e] db1]; simpl in Hp; subst db1.
  - apply run_insert_inserted.
  - left. reflexivity.
Qed.

Lemma writeBatchData_inserted fails now dataArray db :
  inserted_into db (snd (UnityDataWriter.writeBatchData fails now dataArray db)).
Proof.
  unfold UnityDataWriter.writeBatchData, bind.
  pose proof (pure_map_bind dataArray db) as Hp.
  destruct (UnityDataWriter.map_bind dataArray db) as [[ps|e] db1]; simpl in Hp; subst db1.
  - unfold batch.
    destruct (exec_batch fails 0 now ps (unity_data db, sqlite_sequence db))
      as [[rows seq]|] eqn:He.
    + right. exists fails, now, ps. exact He.
    + left. reflexivity.
  - left. reflexivity.
Qed.

Lemma POST_inserted context request now db :
  inserted_into db (snd (POST context request now db)).
Proof.
  unfold POST, try_catch.
  destruct (no_database (getCloudflareEnv context)); [left; reflexivity |].
  destruct request as [| |data]; simpl; try (left; reflexivity).
  unfold bind at 1. simpl.
  destruct (missing_deviceId_or_timestamp data); [left; reflexivity |].
  unfold bind.
  pose proof (writeData_inserted now data db) as Hw.
  destruct (UnityDataWriter.writeData now data db) as [[[]|e] db1]; exact Hw.
Qed.

Lemma all_results_tables sql rows db : tables (snd (all_results sql rows db)) = tables db.
Proof.
  unfold all_results. destruct (rows db); reflexivity.
Qed.

Ltac GET_cases ctx sp :=
  unfold GET, try_catch;
  destruct (no_database (getCloudflareEnv ctx));
  [| destruct (truthy_param (get_deviceId sp)) as [?d|];
     [destruct (truthy_param (get_startTime sp)) as [?s|];
      [destruct (truthy_param (get_endTime sp)) as [?e|] |] |];
     unfold bind, UnityDataWriter.getDataByTimeRange, UnityDataWriter.getLatestData,
       UnityDataWriter.getAllLatestData, all_results;
     try match goal with
         | |- context [LIMIT ?n ?l] => destruct (LIMIT n l)
         end].

Lemma GET_tables ctx sp db : tables (snd (GET ctx sp db)) = tables db.
Proof.
  GET_cases ctx sp; reflexivity.
Qed.

Lemma in_order_inserted db db' :
  ids_in_order db -> inserted_into db db' -> ids_in_order db'.
Proof.
  unfold ids_in_order. intros Hin [Heq | (fails & now & statements & He)].
  - unfold tables in Heq. rewrite Heq. exact Hin.
  - eapply in_order_exec_batch; [exact Hin | exact He].
Qed.

(** X7. The ids of the table are in insertion order, and stay so: in the
    empty database, and after every [POST], [GET] and [writeBatchData] on a
    database where they are, the ids grow strictly along the table and none
    is above the AUTOINCREMENT counter; so no two records share an id. *)
Theorem ids_stay_in_order :
  ids_in_order empty_database
  /\ forall db : D1Database,
       ids_in_order db ->
       (forall context request now, ids_in_order (snd (POST context request now db)))
       /\ (forall context searchParams, ids_in_order (snd (GET context searchParams db)))
       /\ (forall fails now dataArray,
              ids_in_order (snd (UnityDataWriter.writeBatchData fails now dataArray db)))
       /\ NoDup (map DroneData.id (unity_data db)).
Proof.
  split.
  - split; constructor.
  - intros db Hdb. split; [| split; [| split]].
    + intros context request now.
      exact (in_order_inserted _ _ Hdb (POST_inserted context request now db)).
    + intros context sp.
      apply (in_order_inserted db); [exact Hdb |]. left. apply GET_tables.
    + intros fails now dataArray.
      exact (in_order_inserted _ _ Hdb (writeBatchData_inserted fails now dataArray db)).
    + destruct Hdb as [Hsorted _]. simpl in Hsorted.
      induction Hsorted as [|a l Hl IH Ha]; constructor.
      * intros Hin. rewrite Forall_forall in Ha. specialize (Ha a Hin). lia.
      * exact IH.
Qed.

Lemma ids_stay_in_order_witness :
  ids_in_order scenario /\ NoDup (map DroneData.id (unity_data scenario)).
Proof.
  assert (H : ids_in_order scenario).
  { apply (proj2 ids_stay_in_order). apply (proj2 ids_stay_in_order).
    apply (proj2 ids_stay_in_order). exact (proj1 ids_stay_in_order). }
  split; [exact H |].
  apply (proj2 ids_stay_in_order scenario H).
Defined.

(** ** [GET] *)

(** X8. [GET] never throws and never writes: it answers 200 or 500, the
    table and the counter are unchanged, and the database has received no
    call at all or exactly one SELECT. *)
Theorem GET_reads_only :
  forall (context : CloudflareContext) (searchParams : URLSearchParams)
         (db : D1Database),
  exists resp db',
    GET context searchParams db = (Return resp, db')
    /\ (status resp = 200 \/ status resp = 500)
    /\ tables db' = tables db
    /\ (calls db' = calls db
        \/ exists sql, sql <> INSERT_unity_data /\ calls db' = calls db ++ [CallAll sql]).
Proof.
  intros ctx sp db.
  GET_cases ctx sp;
    (do 2 eexists; split; [reflexivity |];
     split; [first [left; reflexivity | right; reflexivity] |];
     split; [reflexivity |];
     first [left; reflexivity
           | right; eexists; split; [| reflexivity]; discriminate]).
Qed.

Lemma truthy_param_empty (p : option string) :
  p = None \/ p = Some "" -> truthy_param p = None.
Proof. intros [-> | ->]; reflexivity. Qed.

(** X9. Without a [deviceId], or with an empty one, [GET] asks for the latest
    records of all devices and ignores [startTime] and [endTime], even when
    both are given. *)
Theorem GET_without_deviceId :
  forall (context : CloudflareContext) (searchParams : URLSearchParams)
         (db : D1Database),
    get_deviceId searchParams = None \/ get_deviceId searchParams = Some "" ->
    GET context searchParams db = GET context (without_bounds searchParams) db
    /\ (no_database (getCloudflareEnv context) = false ->
        GET context searchParams db
        = try_catch
            (data <- UnityDataWriter.getAllLatestData (limit_of searchParams) ;;
             ret (json (LatestBody data (limit_of searchParams) (List.length data)) 200))
            (fun error => ret (json (ErrorBody "Failed to query data" (Some error)) 500))
            db).
Proof.
  intros ctx sp db Hd. apply truthy_param_empty in Hd.
  split.
  - unfold GET, try_catch, without_bounds. simpl. rewrite Hd.
    destruct (no_database (getCloudflareEnv ctx)); reflexivity.
  - intros Hdb. unfold GET, try_catch. rewrite Hdb, Hd. reflexivity.
Qed.

Lemma GET_without_deviceId_witness :
  GET with_database
    {| get_deviceId := Some ""; get_limit := Some "2";
       get_startTime := Some "100"; get_endTime := Some "300" |} scenario
  = GET with_database
      {| get_deviceId := Some ""; get_limit := Some "2";
         get_startTime := None; get_endTime := None |} scenario.
Proof.
  refine (proj1 (GET_without_deviceId with_database
                   {| get_deviceId := Some ""; get_limit := Some "2";
                      get_startTime := Some "100"; get_endTime := Some "300" |}
                   scenario _)).
  right. reflexivity.
Defined.

(** X10. With a [deviceId], a [startTime] and an [endTime], none empty, and
    the binding there, [GET] answers 200 with what [getDataByTimeRange]
    returns for the parsed bounds; the bounds are echoed as they were
    written, and [limit] has no effect, whatever it is, readable or not. *)
Theorem GET_range_query :
  forall (context : CloudflareContext) (searchParams : URLSearchParams)
         (d s e : string) (db : D1Database),
    no_database (getCloudflareEnv context) = false ->
    get_deviceId searchParams = Some d -> d <> "" ->
    get_startTime searchParams = Some s -> s <> "" ->
    get_endTime searchParams = Some e -> e <> "" ->
    exists data,
      UnityDataWriter.getDataByTimeRange d (parseInt s) (parseInt e) db
      = (Return data, received (CallAll SELECT_time_range) db)
      /\ GET context searchParams db
         = (Return (json (RangeBody data d s e (List.length data)) 200),
            received (CallAll SELECT_time_range) db)
      /\ forall limit, GET context (with_limit limit searchParams) db
                       = GET context searchParams db.
Proof.
  intros ctx sp d s e db Hdb Hd Hdne Hs Hsne He Hene.
  eexists. split; [reflexivity |]. split.
  - unfold GET, try_catch. rewrite Hdb, Hd, Hs, He.
    rewrite !truthy_param_nonempty by assumption. reflexivity.
  - intros limit. unfold GET, try_catch, with_limit. simpl.
    rewrite Hdb, Hd, Hs, He.
    rewrite !truthy_param_nonempty by assumption. reflexivity.
Qed.

Lemma GET_range_query_witness :
  exists data,
    UnityDataWriter.getDataByTimeRange "A" (parseInt "150") (parseInt "300") scenario
    = (Return data, received (CallAll SELECT_time_range) scenario)
    /\ GET with_database
         {| get_deviceId := Some "A"; get_limit := Some "none";
            get_startTime := Some "150"; get_endTime := Some "300" |} scenario
       = (Return (json (RangeBody data "A" "150" "300" (List.length data)) 200),
          received (CallAll SELECT_time_range) scenario)
    /\ forall limit,
         GET with_database
           (with_limit limit
              {| get_deviceId := Some "A"; get_limit := Some "none";
                 get_startTime := Some "150"; get_endTime := Some "300" |}) scenario
         = GET with_database
             {| get_deviceId := Some "A"; get_limit := Some "none";
                get_startTime := Some "150"; get_endTime := Some "300" |} scenario.
Proof.
  apply GET_range_query; first [reflexivity | discriminate].
Defined.

Lemma filter_NaN_bound (d : string) (startTime endTime : number) (rows : list DroneData.t) :
  startTime = NaN \/ endTime = NaN ->
  filter (fun r => device_is d r && timestamp_ge startTime r && timestamp_le endTime r)
         rows = [].
Proof.
  intros H. apply filter_none. intros r _.
  destruct H as [-> | ->]; simpl.
  - rewrite andb_false_r. reflexivity.
  - apply andb_false_r.
Qed.

(** X11. A time bound that [parseInt] cannot read selects nothing: when
    [startTime] or [endTime] parses to [NaN], the range query is still sent
    and [GET] answers 200 with no data and count 0, not an error. *)
Theorem GET_range_unreadable_bound :
  forall (context : CloudflareContext) (searchParams : URLSearchParams)
         (d s e : string) (db : D1Database),
    no_database (getCloudflareEnv context) = false ->
    get_deviceId searchParams = Some d -> d <> "" ->
    get_startTime searchParams = Some s -> s <> "" ->
    get_endTime searchParams = Some e -> e <> "" ->
    parseInt s = NaN \/ parseInt e = NaN ->
    GET context searchParams db
    = (Return (json (RangeBody [] d s e 0) 200),
       received (CallAll SELECT_time_range) db).
Proof.
  intros ctx sp d s e db Hdb Hd Hdne Hs Hsne He Hene Hnan.
  unfold GET, try_catch. rewrite Hdb, Hd, Hs, He.
  rewrite !truthy_param_nonempty by assumption.
  unfold bind, UnityDataWriter.getDataByTimeRange, all_results.
  rewrite (filter_NaN_bound d _ _ _ Hnan). reflexivity.
Qed.

Lemma GET_range_unreadable_bound_witness :
  GET with_database
    {| get_deviceId := Some "A"; get_limit := None;
       get_startTime := Some "yesterday"; get_endTime := Some "300" |} scenario
  = (Return (json (RangeBody [] "A" "yesterday" "300" 0) 200),
     received (CallAll SELECT_time_range) scenario).
Proof.
  apply GET_range_unreadable_bound;
    first [reflexivity | discriminate | left; reflexivity].
Defined.

(** X12. A [limit] that [parseInt] cannot read makes the two latest queries
    fail: when the request is not a range query, the SELECT is sent with a
    NULL limit, SQLite refuses it, and [GET] answers 500 "Failed to query
    data"; the table is untouched. *)
Theorem GET_unreadable_limit :
  forall (context : CloudflareContext) (searchParams : URLSearchParams)
         (db : D1Database),
    no_database (getCloudflareEnv context) = false ->
    limit_of searchParams = NaN ->
    truthy_param (get_deviceId searchParams) = None
    \/ truthy_param (get_startTime searchParams) = None
    \/ truthy_param (get_endTime searchParams) = None ->
    exists sql,
      (sql = SELECT_latest_of_device \/ sql = SELECT_latest)
      /\ GET context searchParams db
         = (Return (failed "Failed to query data" datatype_mismatch),
            received (CallAll sql) db).
Proof.
  intros ctx sp db Hdb Hlimit Hbranch.
  unfold GET, try_catch. rewrite Hdb. fold (limit_of sp). rewrite Hlimit.
  destruct (truthy_param (get_deviceId sp)) as [d|].
  - exists SELECT_latest_of_device. split; [left; reflexivity |].
    destruct Hbranch as [H | [H | H]]; [discriminate | |]; rewrite H.
    + reflexivity.
    + destruct (truthy_param (get_startTime sp)); reflexivity.
  - exists SELECT_latest. split; [right; reflexivity | reflexivity].
Qed.

Lemma GET_unreadable_limit_witness :
  exists sql,
    (sql = SELECT_latest_of_device \/ sql = SELECT_latest)
    /\ GET with_database
         {| get_deviceId := Some "A"; get_limit := Some "all";
            get_startTime := None; get_endTime := None |} scenario
       = (Return (failed "Failed to query data" datatype_mismatch),
          received (CallAll sql) scenario).
Proof.
  apply GET_unreadable_limit; first [reflexivity | right; left; reflexivity].
Defined.

(** ** [getLatestData] and the limit *)






(** ** The dashboard *)

Lemma Map_get_set {V} (m : JsMap V) (key key' : string) (value : V) :
  Map_get (Map_set m key value) key'
  = if String.eqb key key' then Some value else Map_get m key'.
Proof.
  induction m as [|[k v] m IH]; simpl.
  - reflexivity.
  - destruct (String.eqb k key) eqn:Hk; simpl.
    + apply String.eqb_eq in Hk. subst k.
      destruct (String.eqb key key'); reflexivity.
    + rewrite IH. destruct (String.eqb k key') eqn:Hk'; [| reflexivity].
      apply String.eqb_eq in Hk'. subst k.
      rewrite String.eqb_sym, Hk. reflexivity.
Qed.

Lemma Map_get_None {V} (m : JsMap V) (key : string) :
  Map_get m key = None <-> ~ In key (map fst m).
Proof.
  induction m as [|[k v] m IH]; simpl.
  - tauto.
  - destruct (String.eqb k key) eqn:Hk.
    + apply String.eqb_eq in Hk. split; [discriminate | intros H; exfalso; tauto].
    + apply String.eqb_neq in Hk. rewrite IH. tauto.
Qed.

Lemma Map_get_In {V} (m : JsMap V) (key : string) (v : V) :
  Map_get m key = Some v -> In (key, v) m.
Proof.
  induction m as [|[k w] m IH]; simpl; [discriminate |].
  destruct (String.eqb k key) eqn:Hk.
  - apply String.eqb_eq in Hk. intros H. inversion H; subst. left. reflexivity.
  - intros H. right. apply IH, H.
Qed.

Lemma In_Map_get {V} (m : JsMap V) (key : string) (v : V) :
  NoDup (map fst m) -> In (key, v) m -> Map_get m key = Some v.
Proof.
  induction m as [|[k w] m IH]; simpl; intros Hnd Hin; [contradiction |].
  apply NoDup_cons_iff in Hnd as [Hk Hnd].
  destruct Hin as [Heq | Hin].
  - inversion Heq; subst. rewrite String.eqb_refl. reflexivity.
  - destruct (String.eqb k key) eqn:Hkk.
    + apply String.eqb_eq in Hkk. subst k. exfalso. apply Hk.
      apply (in_map fst) in Hin. exact Hin.
    + apply IH; assumption.
Qed.

Lemma Map_set_keys {V} (m : JsMap V) (key : string) (value : V) :
  map fst (Map_set m key value)
  = match Map_get m key with
    | Some _ => map fst m
    | None => map fst m ++ [key]
    end.
Proof.
  induction m as [|[k v] m IH]; simpl.
  - reflexivity.
  - destruct (String.eqb k key) eqn:Hk; simpl.
    + apply String.eqb_eq in Hk. subst k. reflexivity.
    + rewrite IH. destruct (Map_get m key); reflexivity.
Qed.

Lemma Map_set_NoDup {V} (m : JsMap V) (key : string) (value : V) :
  NoDup (map fst m) -> NoDup (map fst (Map_set m key value)).
Proof.
  intros Hnd. rewrite Map_set_keys.
  destruct (Map_get m key) eqn:Hg; [exact Hnd |].
  apply Map_get_None in Hg.
  apply NoDup_app; [exact Hnd | constructor; [intros [] | constructor] |].
  intros k Hk [<- | []]. contradiction.
Qed.

Lemma newest_after_set (seen : list DroneData.t) (item : DroneData.t) (m : JsMap DroneData.t) :
  keeps_newest m seen ->
  (forall existing, Map_get m (DroneData.device_id item) = Some existing ->
                    (DroneData.timestamp existing <= DroneData.timestamp item)%Q) ->
  keeps_newest (Map_set m (DroneData.device_id item) item) (seen ++ [item]).
Proof.
  intros (Hnd & Hget & Hall) Hnewer. split; [| split].
  - apply Map_set_NoDup, Hnd.
  - intros k v. rewrite Map_get_set.
    destruct (String.eqb (DroneData.device_id item) k) eqn:Hk.
    + apply String.eqb_eq in Hk. intros H. inversion H; subst v. clear H.
      split; [exact Hk |]. split; [apply in_or_app; right; left; reflexivity |].
      intros o Ho Hdev. apply in_app_or in Ho as [Ho | [<- | []]].
      * destruct (Map_get m (DroneData.device_id item)) as [existing|] eqn:Hex.
        -- destruct (Hget _ _ Hex) as (_ & _ & Hmax).
           eapply Qle_trans; [apply (Hmax o Ho) | apply Hnewer; reflexivity].
           pose proof (proj1 (Hget _ _ Hex)). congruence.
        -- exfalso. apply (Hall o Ho). rewrite Hdev. exact Hex.
      * apply Qle_refl.
    + apply String.eqb_neq in Hk. intros Hv.
      destruct (Hget _ _ Hv) as (Hdev & Hin & Hmax).
      split; [exact Hdev |]. split; [apply in_or_app; left; exact Hin |].
      intros o Ho Hod. apply in_app_or in Ho as [Ho | [<- | []]].
      * apply Hmax; assumption.
      * exfalso. apply Hk. congruence.
  - intros o Ho. rewrite Map_get_set.
    destruct (String.eqb (DroneData.device_id item) (DroneData.device_id o)) eqn:Hk;
      [discriminate |].
    apply in_app_or in Ho as [Ho | [<- | []]].
    + apply Hall, Ho.
    + rewrite String.eqb_refl in Hk. discriminate.
Qed.

Lemma keep_newest_step (seen : list DroneData.t) (item : DroneData.t) (m : JsMap DroneData.t) :
  keeps_newest m seen -> keeps_newest (keep_newest m item) (seen ++ [item]).
Proof.
  intros Hinv. unfold keep_newest.
  destruct (Map_get m (DroneData.device_id item)) as [existing|] eqn:Hex.
  - destruct (Qle_bool (DroneData.timestamp item) (DroneData.timestamp existing)) eqn:Hle; simpl.
    + apply Qle_bool_iff in Hle.
      destruct Hinv as (Hnd & Hget & Hall). split; [exact Hnd | split].
      * intros k v Hv. destruct (Hget _ _ Hv) as (Hdev & Hin & Hmax).
        split; [exact Hdev |]. split; [apply in_or_app; left; exact Hin |].
        intros o Ho Hod. apply in_app_or in Ho as [Ho | [<- | []]].
        -- apply Hmax; assumption.
        -- assert (v = existing) by (rewrite Hod, Hdev in Hex; congruence).
           subst v. exact Hle.
      * intros o Ho. apply in_app_or in Ho as [Ho | [<- | []]].
        -- apply Hall, Ho.
        -- rewrite Hex. discriminate.
    + apply newest_after_set; [exact Hinv |].
      intros e He. rewrite Hex in He. inversion He; subst e.
      apply Qlt_le_weak, Qnot_le_lt. intros H.
      apply Qle_bool_iff in H. congruence.
  - apply newest_after_set; [exact Hinv |].
    intros e He. rewrite Hex in He. discriminate.
Qed.

Lemma fold_keep_newest (data : list DroneData.t) :
  forall m seen,
    keeps_newest m seen -> keeps_newest (fold_left keep_newest data m) (seen ++ data).
Proof.
  induction data as [|item data IH]; simpl; intros m seen Hinv.
  - rewrite app_nil_r. exact Hinv.
  - replace (seen ++ item :: data) with ((seen ++ [item]) ++ data)
      by (rewrite <- app_assoc; reflexivity).
    apply IH, keep_newest_step, Hinv.
Qed.

Lemma keeps_newest_empty : keeps_newest [] [].
Proof.
  split; [constructor | split].
  - intros k v H. discriminate.
  - intros o [].
Qed.

Lemma Array_sort_perm {A} (compareFn : A -> A -> Q) (l : list A) :
  Permutation (Array_sort compareFn l) l.
Proof. apply sort_by_perm. Qed.

Lemma Array_sort_descending (l : list DroneData.t) :
  descending (Array_sort (fun a b => (DroneData.timestamp b - DroneData.timestamp a)%Q) l).
Proof.
  unfold descending, Array_sort.
  eapply StronglySorted_impl; [| apply sort_by_sorted].
  - intros a b H. apply Qle_bool_iff in H. lra.
  - intros a b H. apply Qle_bool_iff.
    assert (Hn : ~ (DroneData.timestamp b - DroneData.timestamp a <= 0)%Q).
    { intros Hle. apply Qle_bool_iff in Hle. congruence. }
    lra.
  - intros a b c Hab Hbc. apply Qle_bool_iff in Hab, Hbc. apply Qle_bool_iff. lra.
Qed.

Lemma keys_are_devices (m : JsMap DroneData.t) (seen : list DroneData.t) :
  keeps_newest m seen -> map DroneData.device_id (Map_values m) = map fst m.
Proof.
  intros (Hnd & Hget & _). unfold Map_values. rewrite map_map.
  apply map_ext_in. intros [k v] Hin. simpl.
  exact (proj1 (Hget k v (In_Map_get m k v Hnd Hin))).
Qed.

(** What [latestData] is, in terms of the input. *)
Lemma latestData_spec (data : list DroneData.t) :
  NoDup (map DroneData.device_id (latestData data))
  /\ (forall r, In r (latestData data) -> In r data /\ newest_of_its_device data r)
  /\ (forall o, In o data ->
                exists r, In r (latestData data) /\ DroneData.device_id r = DroneData.device_id o)
  /\ descending (latestData data).
Proof.
  pose proof (fold_keep_newest data [] [] keeps_newest_empty) as Hinv.
  simpl in Hinv. unfold latestData.
  set (m := fold_left keep_newest data []) in *.
  pose proof (Array_sort_perm (fun a b => (DroneData.timestamp b - DroneData.timestamp a)%Q)
                (Map_values m)) as Hperm.
  split; [| split; [| split]].
  - eapply Permutation_NoDup.
    + apply Permutation_map, Permutation_sym, Hperm.
    + rewrite (keys_are_devices m data Hinv). exact (proj1 Hinv).
  - intros r Hr.
    assert (Hin : In r (Map_values m)) by (eapply Permutation_in; eassumption).
    unfold Map_values in Hin. apply in_map_iff in Hin as ([k v] & <- & Hkv). simpl.
    destruct Hinv as (Hnd & Hget & _).
    destruct (Hget k v (In_Map_get m k v Hnd Hkv)) as (_ & Hin & Hmax).
    split; assumption.
  - intros o Ho. destruct Hinv as (Hnd & Hget & Hall).
    destruct (Map_get m (DroneData.device_id o)) as [v|] eqn:Hv;
      [| exfalso; exact (Hall o Ho Hv)].
    exists v. split.
    + eapply Permutation_in; [apply Permutation_sym, Hperm |].
      unfold Map_values. apply in_map_iff. exists (DroneData.device_id o, v).
      split; [reflexivity | apply Map_get_In, Hv].
    + exact (proj1 (Hget _ _ Hv)).
  - apply Array_sort_descending.
Qed.

(** X15. The reduction of the dashboard keeps one record per device: the
    result has no two records of the same device, every device of the input
    is in it, each record of it is a record of the input that no record of
    the same device in the input is newer than, and it is in descending order
    of timestamp. *)
Theorem latestData_one_newest_per_device :
  forall data : list DroneData.t,
    NoDup (map DroneData.device_id (latestData data))
    /\ (forall r, In r (latestData data) -> In r data /\ newest_of_its_device data r)
    /\ (forall o, In o data ->
                  exists r, In r (latestData data) /\ DroneData.device_id r = DroneData.device_id o)
    /\ descending (latestData data).
Proof.
  exact latestData_spec.
Qed.

Lemma latestData_one_newest_per_device_witness :
  In (row 2 "A" 300 "t2") (unity_data scenario)
  /\ newest_of_its_device (unity_data scenario) (row 2 "A" 300 "t2").
Proof.
  apply (proj1 (proj2 (latestData_one_newest_per_device (unity_data scenario)))).
  left. reflexivity.
Defined.

(** The scenario on the dashboard: A at 300, then B at 200. *)
Example latestData_scenario :
  latestData (unity_data scenario) = [row 2 "A" 300 "t2"; row 3 "B" 200 "t3"].
Proof. reflexivity. Qed.

Lemma StronglySorted_app_cross {A} (R : A -> A -> Prop) (l1 l2 : list A) :
  StronglySorted R (l1 ++ l2) -> forall a b, In a l1 -> In b l2 -> R a b.
Proof.
  induction l1 as [|c l1 IH]; simpl; intros Hs a b Ha Hb; [contradiction |].
  apply StronglySorted_inv in Hs as [Hs Hc].
  destruct Ha as [<- | Ha].
  - rewrite Forall_forall in Hc. apply Hc, in_or_app. right. exact Hb.
  - exact (IH Hs a b Ha Hb).
Qed.

(** A record that is the newest of its device among the first [n] records of
    the table in descending order is the newest of its device in the table. *)
Lemma newest_of_first_is_newest (rows : list DroneData.t) (n : nat) (r : DroneData.t) :
  In r (firstn n (ORDER_BY_timestamp_DESC rows)) ->
  newest_of_its_device (firstn n (ORDER_BY_timestamp_DESC rows)) r ->
  In r rows /\ newest_of_its_device rows r.
Proof.
  intros Hr Hmax.
  pose proof (ORDER_BY_DESC_perm rows) as Hperm.
  pose proof (ORDER_BY_DESC_descending rows) as Hdesc.
  rewrite <- (firstn_skipn n (ORDER_BY_timestamp_DESC rows)) in Hperm, Hdesc.
  split.
  - eapply Permutation_in; [exact Hperm |]. apply in_or_app. left. exact Hr.
  - intros o Ho Hdev.
    apply (Permutation_in _ (Permutation_sym Hperm)) in Ho.
    apply in_app_or in Ho as [Ho | Ho].
    + exact (Hmax o Ho Hdev).
    + exact (StronglySorted_app_cross _ _ _ Hdesc r o Hr Ho).
Qed.

(** X16. The dashboard over the route. The component fetches [limit=100] and
    reduces the answer; when the binding is there, what it shows has one
    record per device, in descending order of timestamp, and each record
    shown is in the table and is the newest of its device in the whole table,
    not only among the hundred fetched. When the table holds at most a
    hundred records, every device of the table is shown. *)
Theorem dashboard_shows_the_newest :
  forall (context : CloudflareContext) (db : D1Database),
    no_database (getCloudflareEnv context) = false ->
    exists resp db' shown,
      GET context dashboard_request db = (Return resp, db')
      /\ fetchLatestData resp = Some shown
      /\ NoDup (map DroneData.device_id shown)
      /\ descending shown
      /\ (forall r, In r shown ->
                    In r (unity_data db) /\ newest_of_its_device (unity_data db) r)
      /\ ((List.length (unity_data db) <= 100)%nat ->
          forall o, In o (unity_data db) ->
                    exists r, In r shown /\ DroneData.device_id r = DroneData.device_id o).
Proof.
  intros ctx db Hdb.
  set (l := firstn 100 (ORDER_BY_timestamp_DESC (unity_data db))).
  assert (Hget : GET ctx dashboard_request db
                 = (Return (json (LatestBody l (Num (inject_Z 100)) (List.length l)) 200),
                    received (CallAll SELECT_latest) db)).
  { unfold GET, try_catch. rewrite Hdb.
    cbn -[parseInt UnityDataWriter.getAllLatestData].
    change (parseInt "100") with (Num (inject_Z 100)).
    unfold bind, UnityDataWriter.getAllLatestData, all_results.
    rewrite LIMIT_integer. reflexivity. }
  destruct (latestData_spec l) as (Hnd & Hin & Hall & Hdesc).
  exists (json (LatestBody l (Num (inject_Z 100)) (List.length l)) 200),
         (received (CallAll SELECT_latest) db), (latestData l).
  split; [exact Hget |]. split; [reflexivity |].
  split; [exact Hnd |]. split; [exact Hdesc |]. split.
  - intros r Hr. destruct (Hin r Hr) as [Hrl Hmax].
    exact (newest_of_first_is_newest (unity_data db) 100 r Hrl Hmax).
  - intros Hlen o Ho. apply Hall. unfold l.
    rewrite firstn_all2.
    + eapply Permutation_in; [apply Permutation_sym, ORDER_BY_DESC_perm | exact Ho].
    + rewrite (Permutation_length (ORDER_BY_DESC_perm (unity_data db))). exact Hlen.
Qed.

Lemma dashboard_shows_the_newest_witness :
  exists resp db' shown,
    GET with_database dashboard_request scenario = (Return resp, db')
    /\ fetchLatestData resp = Some shown
    /\ NoDup (map DroneData.device_id shown)
    /\ descending shown
    /\ (forall r, In r shown ->
                  In r (unity_data scenario)
                  /\ newest_of_its_device (unity_data scenario) r)
    /\ ((List.length (unity_data scenario) <= 100)%nat ->
        forall o, In o (unity_data scenario) ->
                  exists r, In r shown /\ DroneData.device_id r = DroneData.device_id o).
Proof.
  apply (dashboard_shows_the_newest with_database scenario). reflexivity.
Defined.

(** ** Constraint failures and failures in a batch *)

Lemma bind_Throw {A B} (c : Js A) (k : A -> Js B) db e db' :
  bind c k db = (Throw e, db') ->
  c db = (Throw e, db')
  \/ exists a db1, c db = (Return a, db1) /\ k a db1 = (Throw e, db').
Proof.
  unfold bind. destruct (c db) as [[a|e1] db1]; intros H.
  - right. exists a, db1. split; [reflexivity | exact H].
  - left. inversion H; subst. reflexivity.
Qed.

Lemma bind_value_Throw {A} (v : Field A) db e db' :
  bind_value v db = (Throw e, db') -> is_absent v = true.
Proof.
  destruct v; simpl; unfold ret; intros H; try discriminate. reflexivity.
Qed.

Lemma get_velocity_Throw data p db e db' :
  get_velocity data p db = (Throw e, db') ->
  match velocity data with Present _ => False | _ => True end.
Proof.
  unfold get_velocity. destruct (velocity data); unfold ret; intros H;
    [exact I | exact I | discriminate].
Qed.

Ltac absent_is_unbindable :=
  unfold unbindable;
  repeat match goal with
         | H : velocity _ = Present _ |- _ => rewrite H; clear H
         end;
  match goal with
  | H : is_absent _ = true |- _ => rewrite H
  end;
  rewrite ?orb_true_r; reflexivity.

(** [bind] throws only for an unbindable sample. *)
Lemma bind_insert_Throw data db e db' :
  bind_insert data db = (Throw e, db') -> unbindable data = true.
Proof.
  intros Hb. unfold bind_insert in Hb.
  do 3 (apply bind_Throw in Hb as [Hb | (? & ? & Hc & Hb)];
        [apply get_velocity_Throw in Hb; unfold unbindable;
         destruct (velocity data); [reflexivity | reflexivity | contradiction] |];
        apply get_velocity_Return in Hc as (-> & ? & ? & ->)).
  repeat match goal with
         | H1 : velocity data = Present ?v, H2 : velocity data = Present ?w |- _ =>
             assert (w = v) by congruence; subst w; clear H2
         end.
  do 16 (apply bind_Throw in Hb as [Hb | (? & ? & Hc & Hb)];
         [apply bind_value_Throw in Hb; absent_is_unbindable |];
         apply bind_value_Return_present in Hc as (-> & _)).
  discriminate Hb.
Qed.

Lemma has_null_sample_of (r : DroneData.t) : has_null (sample_of r) = false.
Proof. reflexivity. Qed.

(** The INSERT of a bindable sample with a [null] in it is refused. *)
Lemma writeData_has_null now data db :
  unbindable data = false ->
  has_null data = true ->
  UnityDataWriter.writeData now data db
  = (Throw NOT_NULL_failed, received (CallRun INSERT_unity_data) db).
Proof.
  intros Hu Hn. unfold UnityDataWriter.writeData, bind.
  pose proof (pure_bind_insert data db) as Hp.
  destruct (bind_insert data db) as [[p|e] db1] eqn:Hb; simpl in Hp; subst db1.
  - unfold run_insert, exec_insert. simpl.
    destruct (new_row (sqlite_sequence db + 1) now p) as [r|] eqn:Hr; [| reflexivity].
    destruct (bind_insert_new_row _ _ _ _ _ _ _ Hb Hr) as (Hs & _).
    rewrite <- Hs, has_null_sample_of in Hn. discriminate.
  - apply bind_insert_Throw in Hb. congruence.
Qed.

(** X17. A sample that passes the check of the route and can be bound, but
    holds a [null], reaches the database and is refused there: one INSERT is
    run, it fails on the NOT NULL constraint, [POST] answers 500 "Failed to
    save data" and the table is unchanged. *)
Theorem POST_null_value :
  forall (context : CloudflareContext) (data : UnityData) (now : string)
         (db : D1Database),
    no_database (getCloudflareEnv context) = false ->
    missing_deviceId_or_timestamp data = false ->
    unbindable data = false ->
    has_null data = true ->
    POST context (Json data) now db
    = (Return (failed "Failed to save data" NOT_NULL_failed),
       received (CallRun INSERT_unity_data) db).
Proof.
  intros ctx data now db Hdb Hmissing Hu Hn.
  unfold POST, try_catch. rewrite Hdb. simpl. unfold bind at 1. simpl.
  rewrite Hmissing. unfold bind at 1.
  rewrite (writeData_has_null now data db Hu Hn). reflexivity.
Qed.

Lemma POST_null_value_witness :
  POST with_database
    (Json {| deviceId := Present "A"; formattedTime := Null;
             timestamp := Present 100%Q; latitude := Present 0%Q;
             longitude := Present 0%Q; pitch := Present 0%Q; yaw := Present 0%Q;
             roll := Present 0%Q; speed := Present 0%Q;
             velocity := Present {| x := Present 0%Q; y := Present 0%Q;
                                    z := Present 0%Q |};
             horizontalSpeed := Present 0%Q; verticalSpeed := Present 0%Q;
             flightDirection := Present 0%Q; groundDistance := Present 0%Q |})
    "t1" scenario
  = (Return (failed "Failed to save data" NOT_NULL_failed),
     received (CallRun INSERT_unity_data) scenario).
Proof.
  apply POST_null_value; reflexivity.
Defined.

Lemma exec_batch_failure fails now statements :
  forall (k i : nat) (t : Tables),
    (k < List.length statements)%nat ->
    fails (i + k)%nat = true ->
    exec_batch fails i now statements t = None.
Proof.
  induction statements as [|p rest IH]; simpl; intros k i t Hk Hfail; [lia |].
  destruct k as [|k].
  - rewrite Nat.add_0_r in Hfail. rewrite Hfail. reflexivity.
  - destruct (fails i); [reflexivity |].
    destruct (exec_insert now p t) as [t'|]; [| reflexivity].
    apply (IH k (S i) t'); [lia |].
    replace (S i + k)%nat with (i + S k)%nat by lia. exact Hfail.
Qed.

(** X18. A failure at any statement of a batch undoes the batch: for
    complete samples, when statement number [k] of the batch fails, the
    single [db.batch] call throws and the table and the counter are what they
    were, whether [k] is the first, a middle or the last statement. *)
Theorem writeBatchData_failure_anywhere :
  forall (fails : nat -> bool) (now : string) (rows : list DroneData.t) (k : nat)
         (db : D1Database),
    (k < List.length rows)%nat ->
    fails k = true ->
    UnityDataWriter.writeBatchData fails now (map sample_of rows) db
    = (Throw batch_aborted, received (CallBatch (List.length rows)) db).
Proof.
  intros fails now rows k db Hk Hfail.
  unfold UnityDataWriter.writeBatchData, bind.
  destruct (map_bind_stored rows db) as (ps & -> & Hall).
  pose proof (Forall2_length_eq _ _ _ Hall) as Hlen.
  unfold batch.
  rewrite (exec_batch_failure fails now ps k 0) by (simpl; congruence || lia).
  rewrite Hlen. reflexivity.
Qed.

Lemma writeBatchData_failure_anywhere_witness :
  UnityDataWriter.writeBatchData (fun i => Nat.eqb i 2) "t4"
    (map sample_of [row 0 "C" 50 ""; row 0 "A" 400 ""; row 0 "B" 500 ""]) scenario
  = (Throw batch_aborted, received (CallBatch 3) scenario).
Proof.
  apply (writeBatchData_failure_anywhere (fun i => Nat.eqb i 2) "t4"
           [row 0 "C" 50 ""; row 0 "A" 400 ""; row 0 "B" 500 ""] 2%nat scenario).
  - simpl. lia.
  - reflexivity.
Defined.

(** ** Insert, then look up *)

Lemma getLatestData_of_newest (d : string) (r : DroneData.t) (db : D1Database)
    (rows : list DroneData.t) :
  unity_data db = rows ++ [r] ->
  DroneData.device_id r = d ->
  (forall o, In o rows -> DroneData.device_id o = d -> (DroneData.timestamp o < DroneData.timestamp r)%Q) ->
  UnityDataWriter.getLatestData d (Num 1) db
  = (Return [r], received (CallAll SELECT_latest_of_device) db).
Proof.
  intros Hrows Hd Hnewer.
  unfold UnityDataWriter.getLatestData, all_results.
  rewrite Hrows, filter_app. cbn [filter]. unfold device_is at 2.
  rewrite Hd, String.eqb_refl.
  destruct (ORDER_BY_DESC_newest (filter (device_is d) rows) r) as (rest & Hsorted).
  { intros o Ho. apply filter_In in Ho as [Ho Hod].
    apply Hnewer; [exact Ho |]. apply String.eqb_eq. exact Hod. }
  rewrite Hsorted. reflexivity.
Qed.

(** X19. The round trip for a sample that the route accepts: a complete
    sample with a non-empty [deviceId] and a non-zero [timestamp], posted to a
    table in which every record of its device is strictly older, is answered
    200, and [getLatestData(deviceId, 1)] returns next exactly one record,
    which carries that sample. *)
Theorem POST_then_getLatestData :
  forall (now : string) (r0 : DroneData.t) (db : D1Database),
    DroneData.device_id r0 <> "" ->
    ~ (DroneData.timestamp r0 == 0)%Q ->
    (forall o, In o (unity_data db) -> DroneData.device_id o = DroneData.device_id r0 ->
               (DroneData.timestamp o < DroneData.timestamp r0)%Q) ->
    exists resp db1 db2,
      POST with_database (Json (sample_of r0)) now db = (Return resp, db1)
      /\ status resp = 200
      /\ UnityDataWriter.getLatestData (DroneData.device_id r0) (Num 1) db1
         = (Return [stored (sqlite_sequence db + 1) now r0], db2)
      /\ sample_of (stored (sqlite_sequence db + 1) now r0) = sample_of r0.
Proof.
  intros now r0 db Hdev Hts Hnewer.
  unfold POST, try_catch. cbn [getCloudflareEnv with_database no_database DB].
  cbn [request_json]. unfold bind at 1. cbn [ret].
  rewrite (missing_sample_of r0 Hdev Hts).
  unfold bind at 1. rewrite writeData_stored. cbn [ret].
  do 3 eexists. split; [reflexivity |]. split; [reflexivity |].
  split; [| reflexivity].
  apply (getLatestData_of_newest _ _ _ (unity_data db)).
  - reflexivity.
  - reflexivity.
  - exact Hnewer.
Qed.

Lemma POST_then_getLatestData_witness :
  exists resp db1 db2,
    POST with_database (Json (sample_of (row 0 "A" 400 ""))) "t4" scenario
    = (Return resp, db1)
    /\ status resp = 200
    /\ UnityDataWriter.getLatestData "A" (Num 1) db1
       = (Return [stored (sqlite_sequence scenario + 1) "t4" (row 0 "A" 400 "")], db2)
    /\ sample_of (stored (sqlite_sequence scenario + 1) "t4" (row 0 "A" 400 ""))
       = sample_of (row 0 "A" 400 "").
Proof.
  apply (POST_then_getLatestData "t4" (row 0 "A" 400 "") scenario).
  - discriminate.
  - intros H. discriminate H.
  - intros o Ho _. vm_compute in Ho.
    destruct Ho as [<- | [<- | [<- | []]]]; reflexivity.
Defined.
